(** * EVTE: Monte Carlo cash-flow model of an enhanced-recovery project

    Shallow embedding of [src/EVTE.py]: the cash-flow model
    [calcular_indicadores] and the Monte Carlo driver
    [simular_monte_carlo].

    Numbers.  The Python program computes with binary64 floats.  The
    program is embedded twice, from the same source lines.

    - [Modelo] and [MonteCarlo] compute with exact rationals ([Q]): every
      Python float operation [+ - * / ** abs min max sum cumsum] is its
      exact counterpart, and comparisons are the exact order.  The
      theorems quantified over all inputs are proved there.  Equalities
      between computed numbers are stated with [==] ([Qeq]), and with [=]
      where both sides are the same expression of the source or a
      literal.  Rounding, overflow, infinities and NaN are outside this
      embedding.
    - [Binario64] computes with the kernel's binary64 floats, each
      operation rounded to nearest as in the program.  It is used to run
      the model at concrete inputs where the outcome depends on rounding.

    Errors.  The only operation of the model that can raise on numeric
    input is the Python float division [vpl / investimento]
    ([ZeroDivisionError] when [investimento] is zero); it is modelled with
    [option].  Divisors that are non-zero literals, and the division of
    numpy scalars in the payback interpolation (which never raises), are
    the total division. *)

From Stdlib Require Import List ZArith QArith Qabs Lia Lqa Bool.
From Stdlib Require Floats.
Import ListNotations.

Local Open Scope Q_scope.

(** ** Python and numpy primitives used by the program *)

Module Py.

(** [x < y] on numbers, as a boolean. *)
Definition Qltb (x y : Q) : bool :=
  match x ?= y with Lt => true | _ => false end.

(** Builtin [min(a, b)]: [a] unless [b < a]. *)
Definition min (a b : Q) : Q := if Qltb b a then b else a.

(** Builtin [max(a, b)]: [a] unless [b > a]. *)
Definition max (a b : Q) : Q := if Qltb a b then b else a.

(** Builtin [sum(l)]: left fold starting from the integer 0. *)
Definition sum (l : list Q) : Q := fold_left Qplus l 0.

(** [range(a, b)]. *)
Definition range (a b : nat) : list nat := seq a (b - a).

(** [l[i] = v] for an index inside the list.  Python raises
    [IndexError] outside; the model only assigns inside (see
    [investimentos_indices] and [depreciacao_indices]). *)
Fixpoint assign (i : nat) (v : Q) (l : list Q) : list Q :=
  match l, i with
  | [], _ => []
  | _ :: t, O => v :: t
  | x :: t, S j => x :: assign j v t
  end.

(** [zip] of two and of three lists, stopping at the shortest, followed
    by the comprehension's body. *)
Fixpoint zip_with {A B C} (f : A -> B -> C) (l1 : list A) (l2 : list B)
  : list C :=
  match l1, l2 with
  | a :: t1, b :: t2 => f a b :: zip_with f t1 t2
  | _, _ => []
  end.

Fixpoint zip_with3 {A B C D} (f : A -> B -> C -> D)
  (l1 : list A) (l2 : list B) (l3 : list C) : list D :=
  match l1, l2, l3 with
  | a :: t1, b :: t2, c :: t3 => f a b c :: zip_with3 f t1 t2 t3
  | _, _, _ => []
  end.

(** [np.cumsum]: running sums, the first entry being the first element. *)
Fixpoint running (acc : Q) (l : list Q) : list Q :=
  match l with
  | [] => []
  | x :: t => (acc + x) :: running (acc + x) t
  end.

Definition cumsum (l : list Q) : list Q :=
  match l with
  | [] => []
  | x :: t => x :: running x t
  end.

(** Float division [a / b]: raises [ZeroDivisionError] on a zero divisor. *)
Definition div (a b : Q) : option Q :=
  if Qeq_bool b 0 then None else Some (a / b).

End Py.

(** ** The cash-flow model *)

(** [parametros_base]: the module-level dictionary of fixed parameters. *)
Record ParametrosBase := {
  preco_petroleo : Q;
  investimento_total : Q;
  incremento_recuperacao : Q;
  custo_operacional : Q;
  taxa_declinio : Q;
  taxa_minima_atratividade : Q;
  anos_projeto : nat;
  custo_polimero : Q;
  custos_fixos_anuais : Q
}.

Definition parametros_base : ParametrosBase := {|
  preco_petroleo := 70;
  investimento_total := 45000000;
  incremento_recuperacao := 15;
  custo_operacional := 8;
  taxa_declinio := 5;
  taxa_minima_atratividade := 12;
  anos_projeto := 15;
  custo_polimero := 22 # 10;
  custos_fixos_anuais := 1500000
|}.

(** The dictionary [parametros] received by [calcular_indicadores]. *)
Record Parametros := {
  preco : Q;
  investimento : Q;
  eficiencia : Q;
  custo : Q;
  declinio : Q
}.

(** The dictionary returned by [calcular_indicadores]. *)
Record Indicadores := {
  VPL : Q;
  TIR : Q;
  Payback : Q;
  Fluxo_Caixa : list Q;
  Fluxo_Caixa_Descontado : list Q
}.

Module Modelo.

(** Number of years of the schedule, [anos_projeto + 1] in the source. *)
Definition n_anos : nat := (anos_projeto parametros_base + 1)%nat.

Definition fator_eficiencia (p : Parametros) : Q :=
  eficiencia p / incremento_recuperacao parametros_base.

Definition producao_base : list Q := [0; 500; 1200; 1800; 2000].

(** The list after the comprehension and the [for ano in range(5, ...)]
    loop, which appends one entry per year from the previous one. *)
Definition producao_ajustada (p : Parametros) : list Q :=
  fold_left
    (fun producao ano =>
       let producao_anterior := nth (ano - 1) producao 0 in
       let producao_atual := producao_anterior * (1 - declinio p / 100) in
       producao ++ [producao_atual])
    (Py.range 5 n_anos)
    (map (fun b => b * fator_eficiencia p) producao_base).

Definition producao_anual (p : Parametros) : list Q :=
  map (fun x => x * 365) (producao_ajustada p).

Definition receita_bruta (p : Parametros) : list Q :=
  map (fun x => x * preco p * (9 # 10)) (producao_anual p).

Definition royalties (p : Parametros) : list Q :=
  map (fun r => r * (1 # 10)) (receita_bruta p).

Definition receita_liquida (p : Parametros) : list Q :=
  Py.zip_with (fun r roy => r - roy) (receita_bruta p) (royalties p).

Definition investimentos (p : Parametros) : list Q :=
  Py.assign 2 (investimento p * (2 # 10))
    (Py.assign 1 (investimento p * (3 # 10))
       (Py.assign 0 (investimento p * (5 # 10))
          (repeat 0 n_anos))).

Definition custos_fixos : list Q :=
  Py.assign 0 0 (repeat (custos_fixos_anuais parametros_base) n_anos).

Definition custos_variaveis (p : Parametros) : list Q :=
  map (fun x => x * custo p) (producao_anual p).

Definition custos_polimero (p : Parametros) : list Q :=
  map (fun x => x * custo_polimero parametros_base) (producao_anual p).

Definition custos_totais (p : Parametros) : list Q :=
  Py.zip_with3 (fun f v c => f + v + c)
    custos_fixos (custos_variaveis p) (custos_polimero p).

Definition valor_depreciavel (p : Parametros) : Q :=
  investimento p * (8 # 10).

Definition depreciacao (p : Parametros) : list Q :=
  fold_left
    (fun dep ano => Py.assign ano (valor_depreciavel p / 10) dep)
    (Py.range 1 (Nat.min 11 n_anos))
    (repeat 0 n_anos).

Definition lucro_antes_impostos (p : Parametros) : list Q :=
  Py.zip_with3 (fun r c d => r - c - d)
    (receita_liquida p) (custos_totais p) (depreciacao p).

Definition impostos (p : Parametros) : list Q :=
  map (fun l => Py.max 0 (l * (34 # 100))) (lucro_antes_impostos p).

Definition lucro_liquido (p : Parametros) : list Q :=
  Py.zip_with (fun l i => l - i) (lucro_antes_impostos p) (impostos p).

Definition fluxo_caixa (p : Parametros) : list Q :=
  Py.zip_with3 (fun ll d inv => ll + d - inv)
    (lucro_liquido p) (depreciacao p) (investimentos p).

Definition fator_desconto : list Q :=
  map (fun ano =>
         1 / (1 + taxa_minima_atratividade parametros_base / 100)
               ^ Z.of_nat ano)
      (Py.range 0 n_anos).

Definition fluxo_caixa_descontado (p : Parametros) : list Q :=
  Py.zip_with (fun fc fd => fc * fd) (fluxo_caixa p) fator_desconto.

Definition vpl (p : Parametros) : Q := Py.sum (fluxo_caixa_descontado p).

(** The [if vpl <= 0: ... else: ...] block computing [tir]. *)
Definition tir (p : Parametros) : option Q :=
  if Qle_bool (vpl p) 0 then Some 0
  else
    match Py.div (vpl p) (investimento p) with
    | None => None
    | Some razao => Some (Py.min (razao * 15 + 12) 50)
    end.

Definition fluxo_acumulado (p : Parametros) : list Q :=
  Py.cumsum (fluxo_caixa_descontado p).

(** The [for i in range(1, len(fluxo_acumulado)): ... break] loop;
    [None] stands for the loop ending without [break]. *)
Fixpoint cruzamento (acumulado : list Q) (indices : list nat) : option Q :=
  match indices with
  | [] => None
  | i :: resto =>
      let anterior := nth (i - 1) acumulado 0 in
      let atual := nth i acumulado 0 in
      if Py.Qltb anterior 0 && Qle_bool 0 atual
      then Some (inject_Z (Z.of_nat i - 1)
                 + Qabs anterior / Qabs (atual - anterior))
      else cruzamento acumulado resto
  end.

(** The whole payback block, as a function of the cumulative list. *)
Definition payback_de (acumulado : list Q) : Q :=
  if forallb (fun f => Py.Qltb f 0) acumulado
  then inject_Z (Z.of_nat (anos_projeto parametros_base))
  else
    match cruzamento acumulado (Py.range 1 (length acumulado)) with
    | Some v => v
    | None => 0
    end.

Definition payback (p : Parametros) : Q := payback_de (fluxo_acumulado p).

(** [calcular_indicadores(parametros)]; [None] is [ZeroDivisionError]. *)
Definition calcular_indicadores (p : Parametros) : option Indicadores :=
  match tir p with
  | None => None
  | Some t =>
      Some {| VPL := vpl p;
              TIR := t;
              Payback := payback p;
              Fluxo_Caixa := fluxo_caixa p;
              Fluxo_Caixa_Descontado := fluxo_caixa_descontado p |}
  end.

End Modelo.

(** The base scenario of the project. *)
Definition cenario_base : Parametros := {|
  preco := 70;
  investimento := 45000000;
  eficiencia := 15;
  custo := 8;
  declinio := 5
|}.

(** Variants of the base scenario: no efficiency gain, a decline rate of
    100 %, and a negative efficiency gain. *)
Definition sem_eficiencia : Parametros :=
  {| preco := 70; investimento := 45000000; eficiencia := 0;
     custo := 8; declinio := 5 |}.

Definition declinio_total : Parametros :=
  {| preco := 70; investimento := 45000000; eficiencia := 15;
     custo := 8; declinio := 100 |}.

Definition eficiencia_negativa : Parametros :=
  {| preco := 70; investimento := 45000000; eficiencia := - 15;
     custo := 8; declinio := 5 |}.

(** A sample with no investment and no efficiency gain: nothing is spent
    in year 0 and every later year only pays the fixed costs. *)
Definition sem_investimento_nem_eficiencia : Parametros :=
  {| preco := 70; investimento := 0; eficiencia := 0;
     custo := 8; declinio := 5 |}.

(** Vocabulary for the payback statements, over a cumulative list
    [acc]: the cumulative goes from negative at year [i-1] to non-negative
    at year [i]; the fraction of the crossing year; the interpolated
    payback at a crossing. *)
Definition cruza (acc : list Q) (i : nat) : Prop :=
  nth (i - 1) acc 0 < 0 /\ 0 <= nth i acc 0.

Definition fracao (acc : list Q) (i : nat) : Q :=
  Qabs (nth (i - 1) acc 0) / Qabs (nth i acc 0 - nth (i - 1) acc 0).

Definition interpolacao (acc : list Q) (i : nat) : Q :=
  inject_Z (Z.of_nat i - 1) + fracao acc i.

(** The cumulative discounted cash flow of a returned result. *)
Definition acumulado_de (r : Indicadores) : list Q :=
  Py.cumsum (Fluxo_Caixa_Descontado r).

(** The sum of a yearly schedule over the years [0 .. n-1], written as an
    indexed sum; [Py.sum] is compared with it in [sum_soma_dos_anos]. *)
Fixpoint soma_dos_anos (n : nat) (f : nat -> Q) : Q :=
  match n with
  | O => 0
  | S k => soma_dos_anos k f + f k
  end.

(** ** The Monte Carlo driver *)

(** numpy's global random generator.  Its code is not part of the
    repository: the driver is modelled over any generator with a state,
    the re-seeding [np.random.seed] and a draw of one double in [0, 1)
    that advances the state. *)
Record Gerador := {
  estado : Type;
  seed : Z -> estado;
  random_sample : estado -> Q * estado;
  random_sample_range :
    forall s, 0 <= fst (random_sample s) /\ fst (random_sample s) < 1
}.

(** The sidebar values read by the driver as module-level globals. *)
Record Sidebar := {
  preco_min : Q;
  preco_max : Q;
  investimento_min : Q;
  investimento_max : Q;
  eficiencia_min : Q;
  eficiencia_max : Q
}.

(** The sliders' default values (investment in US$ millions). *)
Definition sidebar_padrao : Sidebar := {|
  preco_min := 50;
  preco_max := 90;
  investimento_min := 36;
  investimento_max := 63;
  eficiencia_min := 10;
  eficiencia_max := 18
|}.

(** One row of the returned table; the fields are the columns, in order. *)
Record Linha := {
  Simulacao : nat;
  Preco_do_Petroleo : Q;
  Investimento_Total : Q;
  Incremento_Fator_Recuperacao : Q;
  Custo_Operacional_Variavel : Q;
  Taxa_de_Declinio : Q;
  Linha_VPL : Q;
  Linha_TIR : Q;
  Linha_Payback : Q
}.

Module MonteCarlo.

Section Driver.

Variable G : Gerador.
Variable sb : Sidebar.

(** Computations that read and advance the global generator state and may
    raise. *)
Definition M (A : Type) : Type := estado G -> option (A * estado G).

Definition ret {A} (a : A) : M A := fun s => Some (a, s).

Definition bind {A B} (m : M A) (k : A -> M B) : M B :=
  fun s => match m s with
           | None => None
           | Some (a, s') => k a s'
           end.

Notation "x <- m ;; k" := (bind m (fun x => k))
  (at level 61, m at next level, right associativity).

(** [np.random.seed(k)]: the previous state is discarded. *)
Definition np_random_seed (k : Z) : M unit :=
  fun _ => Some (tt, seed G k).

(** [np.random.uniform(low, high)]: [low + (high - low) * u] for the next
    double [u]. *)
Definition np_random_uniform (low high : Q) : M Q :=
  fun s => let (u, s') := random_sample G s in
           Some (low + (high - low) * u, s').

(** A call that may raise. *)
Definition chamar {A} (o : option A) : M A :=
  fun s => match o with
           | None => None
           | Some a => Some (a, s)
           end.

(** The body of [for i in range(num_simulacoes)], over the remaining
    indices, with the list [resultados] built so far. *)
Fixpoint iterar (indices : list nat) (resultados : list Linha)
  : M (list Linha) :=
  match indices with
  | [] => ret resultados
  | i :: resto =>
      preco <- np_random_uniform (preco_min sb) (preco_max sb) ;;
      milhoes <- np_random_uniform (investimento_min sb)
                                   (investimento_max sb) ;;
      let investimento := milhoes * 1000000 in
      eficiencia <- np_random_uniform (eficiencia_min sb)
                                      (eficiencia_max sb) ;;
      custo <- np_random_uniform (68 # 10) (104 # 10) ;;
      declinio <- np_random_uniform 2 10 ;;
      let parametros_simulacao :=
        {| preco := preco;
           investimento := investimento;
           eficiencia := eficiencia;
           custo := custo;
           declinio := declinio |} in
      indicadores <- chamar (Modelo.calcular_indicadores
                               parametros_simulacao) ;;
      iterar resto
        (resultados ++
         [ {| Simulacao := i + 1;
              Preco_do_Petroleo := preco;
              Investimento_Total := investimento;
              Incremento_Fator_Recuperacao := eficiencia;
              Custo_Operacional_Variavel := custo;
              Taxa_de_Declinio := declinio;
              Linha_VPL := VPL indicadores;
              Linha_TIR := TIR indicadores;
              Linha_Payback := Payback indicadores |} ])
  end.

(** [simular_monte_carlo(num_simulacoes)]; the table is the list of rows. *)
Definition simular_monte_carlo (num_simulacoes : nat) : M (list Linha) :=
  _ <- np_random_seed 42 ;;
  iterar (Py.range 0 num_simulacoes) [].

(** The state after [k] draws from [s], and the [k]-th double drawn from
    [s] (counting from 0). *)
Fixpoint avancar (k : nat) (s : estado G) : estado G :=
  match k with
  | O => s
  | S j => avancar j (snd (random_sample G s))
  end.

Definition sorteio (s : estado G) (k : nat) : Q :=
  fst (random_sample G (avancar k s)).

(** The sampled parameters of one iteration as a function of its five
    doubles, taken in the order price, investment, efficiency, cost,
    decline. *)
Definition parametros_de (u0 u1 u2 u3 u4 : Q) : Parametros :=
  {| preco := preco_min sb + (preco_max sb - preco_min sb) * u0;
     investimento :=
       (investimento_min sb
        + (investimento_max sb - investimento_min sb) * u1) * 1000000;
     eficiencia :=
       eficiencia_min sb + (eficiencia_max sb - eficiencia_min sb) * u2;
     custo := (68 # 10) + ((104 # 10) - (68 # 10)) * u3;
     declinio := 2 + (10 - 2) * u4 |}.

(** The row appended at iteration [i] for the sampled parameters [P] and
    the indicators [r] returned on them. *)
Definition linha_de (i : nat) (P : Parametros) (r : Indicadores) : Linha :=
  {| Simulacao := i + 1;
     Preco_do_Petroleo := preco P;
     Investimento_Total := investimento P;
     Incremento_Fator_Recuperacao := eficiencia P;
     Custo_Operacional_Variavel := custo P;
     Taxa_de_Declinio := declinio P;
     Linha_VPL := VPL r;
     Linha_TIR := TIR r;
     Linha_Payback := Payback r |}.

(** The sampled parameters of iteration [j] (from 0) of a run whose
    generator state after seeding is [s]: the doubles [5j .. 5j+4]. *)
Definition amostra (s : estado G) (j : nat) : Parametros :=
  parametros_de (sorteio s (5 * j)) (sorteio s (5 * j + 1))
                (sorteio s (5 * j + 2)) (sorteio s (5 * j + 3))
                (sorteio s (5 * j + 4)).

End Driver.

End MonteCarlo.

(** ** A concrete generator for the examples

    A linear congruential generator modulo 2^31; each double is the new
    state over 2^31. *)
Definition lcg_passo (s : Z) : Z := (1103515245 * s + 12345) mod 2147483648.

Lemma lcg_faixa (s : Z) :
  0 <= fst (lcg_passo s # 2147483648, lcg_passo s) /\
  fst (lcg_passo s # 2147483648, lcg_passo s) < 1.
Proof.
  assert (H : (0 <= lcg_passo s < 2147483648)%Z).
  { apply Z.mod_pos_bound. reflexivity. }
  unfold Qle, Qlt. cbn [fst Qnum Qden]. lia.
Qed.

Definition lcg : Gerador := {|
  estado := Z;
  seed := fun k => (k mod 2147483648)%Z;
  random_sample := fun s => (lcg_passo s # 2147483648, lcg_passo s);
  random_sample_range := lcg_faixa
|}.

(** ** The cash-flow model in binary64

    The same lines of [calcular_indicadores], computed as the program
    computes them: every operation is the binary64 operation, in the
    order in which Python evaluates the expression, and the integer
    literals of the source that meet a float are the corresponding
    doubles.  The decimal literals are the nearest doubles. *)

Module Binario64.

Import Floats.
#[local] Set Warnings "-inexact-float".
Local Open Scope float_scope.

(** Builtin [min(a, b)]: [a] unless [b < a]; builtin [max(a, b)]: [a]
    unless [b > a]. *)
Definition min (a b : float) : float := if b <? a then b else a.

Definition max (a b : float) : float := if a <? b then b else a.

(** Builtin [sum(l)]: the entries added one by one from the left, starting
    from the integer 0, each addition rounded.  This is what CPython does
    on the numpy doubles the driver passes to the model (and on Python
    floats before version 3.12, which sums them with a compensation
    term). *)
Definition sum (l : list float) : float := fold_left add l 0.

(** [l[i] = v] for an index inside the list. *)
Fixpoint assign (i : nat) (v : float) (l : list float) : list float :=
  match l, i with
  | [], _ => []
  | _ :: t, O => v :: t
  | x :: t, S j => x :: assign j v t
  end.

(** [np.cumsum]: running sums, the first entry being the first element. *)
Fixpoint running (acc : float) (l : list float) : list float :=
  match l with
  | [] => []
  | x :: t => (acc + x) :: running (acc + x) t
  end.

Definition cumsum (l : list float) : list float :=
  match l with
  | [] => []
  | x :: t => x :: running x t
  end.

(** An integer of the program converted to a double. *)
Definition inteiro (z : Z) : float :=
  SF2Prim (binary_normalize prec emax z 0 false).

(** [x ** n] for a positive double [x] and an integer [n >= 0].  Python
    computes it with the C library's [pow], taken here as correctly
    rounded: the exact power of [x] rounded to the nearest double. *)
Definition potencia (x : float) (n : nat) : float :=
  match Prim2SF x with
  | S754_finite false m e =>
      SF2Prim (binary_normalize prec emax (Z.pos m ^ Z.of_nat n)
                                (e * Z.of_nat n) false)
  | _ => nan
  end.

(** Float division [a / b]: raises [ZeroDivisionError] on a zero divisor. *)
Definition div (a b : float) : option float :=
  if b =? 0 then None else Some (a / b).

(** The dictionaries [parametros] and the returned one. *)
Record Parametros := {
  preco : float;
  investimento : float;
  eficiencia : float;
  custo : float;
  declinio : float
}.

Record Indicadores := {
  VPL : float;
  TIR : float;
  Payback : float;
  Fluxo_Caixa : list float;
  Fluxo_Caixa_Descontado : list float
}.

(** The entries of [parametros_base] read by the model. *)
Definition incremento_recuperacao : float := 15.

Definition taxa_minima_atratividade : float := 12.

Definition anos_projeto : nat := 15.

Definition custo_polimero : float := 2.2.

Definition custos_fixos_anuais : float := 1500000.

Definition n_anos : nat := (anos_projeto + 1)%nat.

Definition fator_eficiencia (p : Parametros) : float :=
  eficiencia p / incremento_recuperacao.

Definition producao_base : list float := [0; 500; 1200; 1800; 2000].

Definition producao_ajustada (p : Parametros) : list float :=
  fold_left
    (fun producao ano =>
       let producao_anterior := nth (ano - 1)%nat producao 0 in
       let producao_atual := producao_anterior * (1 - declinio p / 100) in
       producao ++ [producao_atual])
    (Py.range 5 n_anos)
    (map (fun b => b * fator_eficiencia p) producao_base).

Definition producao_anual (p : Parametros) : list float :=
  map (fun x => x * 365) (producao_ajustada p).

Definition receita_bruta (p : Parametros) : list float :=
  map (fun x => x * preco p * 0.9) (producao_anual p).

Definition royalties (p : Parametros) : list float :=
  map (fun r => r * 0.1) (receita_bruta p).

Definition receita_liquida (p : Parametros) : list float :=
  Py.zip_with (fun r roy => r - roy) (receita_bruta p) (royalties p).

Definition investimentos (p : Parametros) : list float :=
  assign 2 (investimento p * 0.2)
    (assign 1 (investimento p * 0.3)
       (assign 0 (investimento p * 0.5)
          (repeat 0 n_anos))).

Definition custos_fixos : list float :=
  assign 0 0 (repeat custos_fixos_anuais n_anos).

Definition custos_variaveis (p : Parametros) : list float :=
  map (fun x => x * custo p) (producao_anual p).

Definition custos_polimero (p : Parametros) : list float :=
  map (fun x => x * custo_polimero) (producao_anual p).

Definition custos_totais (p : Parametros) : list float :=
  Py.zip_with3 (fun f v c => f + v + c)
    custos_fixos (custos_variaveis p) (custos_polimero p).

Definition valor_depreciavel (p : Parametros) : float :=
  investimento p * 0.8.

Definition depreciacao (p : Parametros) : list float :=
  fold_left
    (fun dep ano => assign ano (valor_depreciavel p / 10) dep)
    (Py.range 1 (Nat.min 11 n_anos))
    (repeat 0 n_anos).

Definition lucro_antes_impostos (p : Parametros) : list float :=
  Py.zip_with3 (fun r c d => r - c - d)
    (receita_liquida p) (custos_totais p) (depreciacao p).

Definition impostos (p : Parametros) : list float :=
  map (fun l => max 0 (l * 0.34)) (lucro_antes_impostos p).

Definition lucro_liquido (p : Parametros) : list float :=
  Py.zip_with (fun l i => l - i) (lucro_antes_impostos p) (impostos p).

Definition fluxo_caixa (p : Parametros) : list float :=
  Py.zip_with3 (fun ll d inv => ll + d - inv)
    (lucro_liquido p) (depreciacao p) (investimentos p).

Definition fator_desconto : list float :=
  map (fun ano => 1 / potencia (1 + taxa_minima_atratividade / 100) ano)
      (Py.range 0 n_anos).

Definition fluxo_caixa_descontado (p : Parametros) : list float :=
  Py.zip_with (fun fc fd => fc * fd) (fluxo_caixa p) fator_desconto.

Definition vpl (p : Parametros) : float := sum (fluxo_caixa_descontado p).

Definition tir (p : Parametros) : option float :=
  if vpl p <=? 0 then Some 0
  else
    match div (vpl p) (investimento p) with
    | None => None
    | Some razao => Some (min (razao * 15 + 12) 50)
    end.

Definition fluxo_acumulado (p : Parametros) : list float :=
  cumsum (fluxo_caixa_descontado p).

Fixpoint cruzamento (acumulado : list float) (indices : list nat)
  : option float :=
  match indices with
  | [] => None
  | i :: resto =>
      let anterior := nth (i - 1)%nat acumulado 0 in
      let atual := nth i acumulado 0 in
      if (anterior <? 0) && (0 <=? atual)
      then Some (inteiro (Z.of_nat i - 1)
                 + abs anterior / abs (atual - anterior))
      else cruzamento acumulado resto
  end.

Definition payback_de (acumulado : list float) : float :=
  if forallb (fun f => f <? 0) acumulado
  then inteiro (Z.of_nat anos_projeto)
  else
    match cruzamento acumulado (Py.range 1 (length acumulado)) with
    | Some v => v
    | None => 0
    end.

Definition payback (p : Parametros) : float :=
  payback_de (fluxo_acumulado p).

Definition calcular_indicadores (p : Parametros) : option Indicadores :=
  match tir p with
  | None => None
  | Some t =>
      Some {| VPL := vpl p;
              TIR := t;
              Payback := payback p;
              Fluxo_Caixa := fluxo_caixa p;
              Fluxo_Caixa_Descontado := fluxo_caixa_descontado p |}
  end.

(** A sample inside the ranges of the default sidebar (price in
    [50, 90], investment in [36, 63] millions, efficiency in [10, 18]) and
    of the driver (cost in [6.8, 10.4], decline in [2, 10]): the
    investment is the double 51307570.390270546. *)
Definition tir_na_tma : Parametros :=
  {| preco := 51; investimento := 0x1.87721931f462ap+25;
     eficiencia := 11; custo := 10; declinio := 8 |}.

(** The ranges of the sampled parameters under the sliders' default
    values: the driver multiplies the investment drawn by 1000000. *)
Definition nas_faixas_padrao (p : Parametros) : bool :=
  (50 <=? preco p) && (preco p <=? 90) &&
  (36 * 1000000 <=? investimento p) && (investimento p <=? 63 * 1000000) &&
  (10 <=? eficiencia p) && (eficiencia p <=? 18) &&
  (6.8 <=? custo p) && (custo p <=? 10.4) &&
  (2 <=? declinio p) && (declinio p <=? 10).

(** The base scenario with a decline rate of 2^-50. *)
Definition declinio_minimo : Parametros :=
  {| preco := 70; investimento := 45000000; eficiencia := 15;
     custo := 8; declinio := 0x1p-50 |}.

End Binario64.

(** ** Facts about the primitives *)

Section PyFacts.

Import Py.

Lemma Qltb_true (x y : Q) : Qltb x y = true <-> x < y.
Proof.
  unfold Qltb. rewrite Qlt_alt.
  destruct (x ?= y); split; intro H; try reflexivity; discriminate.
Qed.

Lemma Qltb_false (x y : Q) : Qltb x y = false <-> y <= x.
Proof.
  split; intro H.
  - apply Qnot_lt_le. intro L. apply Qltb_true in L. congruence.
  - destruct (Qltb x y) eqn:E; [|reflexivity].
    apply Qltb_true in E. lra.
Qed.

Lemma Qle_bool_false (x y : Q) : Qle_bool x y = false <-> y < x.
Proof.
  split; intro H.
  - apply Qnot_le_lt. intro L. apply Qle_bool_iff in L. congruence.
  - destruct (Qle_bool x y) eqn:E; [|reflexivity].
    apply Qle_bool_iff in E. lra.
Qed.

Lemma max_cases (a b : Q) :
  (b <= a /\ max a b = a) \/ (a < b /\ max a b = b).
Proof.
  unfold max. destruct (Qltb a b) eqn:E.
  - right. apply Qltb_true in E. auto.
  - left. apply Qltb_false in E. auto.
Qed.

Lemma min_cases (a b : Q) :
  (a <= b /\ min a b = a) \/ (b < a /\ min a b = b).
Proof.
  unfold min. destruct (Qltb b a) eqn:E.
  - right. apply Qltb_true in E. auto.
  - left. apply Qltb_false in E. auto.
Qed.

Lemma div_Some (a b q : Q) : div a b = Some q -> ~ b == 0 /\ q = a / b.
Proof.
  unfold div. destruct (Qeq_bool b 0) eqn:E; [discriminate|].
  intro H. injection H as <-. split; [|reflexivity].
  intro Hb. apply Qeq_bool_iff in Hb. congruence.
Qed.

Lemma div_None (a b : Q) : div a b = None <-> b == 0.
Proof.
  unfold div. destruct (Qeq_bool b 0) eqn:E.
  - apply Qeq_bool_iff in E. tauto.
  - split; [discriminate|]. intro Hb. apply Qeq_bool_iff in Hb. congruence.
Qed.

Lemma length_assign (i : nat) (v : Q) (l : list Q) :
  length (assign i v l) = length l.
Proof.
  revert i. induction l as [|x t IH]; intros [|j]; simpl; auto.
Qed.

Lemma length_zip_with {A B C} (f : A -> B -> C) l1 l2 :
  length (zip_with f l1 l2) = Nat.min (length l1) (length l2).
Proof.
  revert l2. induction l1 as [|a t IH]; intros [|b t2]; simpl; auto.
Qed.

Lemma length_zip_with3 {A B C D} (f : A -> B -> C -> D) l1 l2 l3 :
  length (zip_with3 f l1 l2 l3)
  = Nat.min (length l1) (Nat.min (length l2) (length l3)).
Proof.
  revert l2 l3.
  induction l1 as [|a t IH]; intros [|b t2] [|c t3]; simpl; auto.
Qed.

Lemma length_running (acc : Q) (l : list Q) :
  length (running acc l) = length l.
Proof. revert acc. induction l; intros; simpl; auto. Qed.

Lemma length_cumsum (l : list Q) : length (cumsum l) = length l.
Proof. destruct l; simpl; [|rewrite length_running]; reflexivity. Qed.

Lemma length_range (a b : nat) : length (range a b) = (b - a)%nat.
Proof. apply length_seq. Qed.

End PyFacts.

(** ** Shape of the schedules *)

Section Comprimentos.

Import Modelo.
Variable p : Parametros.

Lemma n_anos_eq : n_anos = 16%nat.
Proof. reflexivity. Qed.

(** The appending loop, for any starting list and any years. *)
Lemma length_loop_producao (q : Q) (anos : list nat) (l0 : list Q) :
  length
    (fold_left (fun producao ano =>
                  producao ++ [nth (ano - 1) producao 0 * q]) anos l0)
  = (length l0 + length anos)%nat.
Proof.
  revert l0. induction anos as [|a t IH]; intro l0; simpl.
  - lia.
  - rewrite IH, length_app. simpl. lia.
Qed.

Lemma length_producao_ajustada : length (producao_ajustada p) = n_anos.
Proof.
  unfold producao_ajustada. cbv zeta.
  rewrite length_loop_producao, length_map, length_range. reflexivity.
Qed.

Lemma length_producao_anual : length (producao_anual p) = n_anos.
Proof.
  unfold producao_anual. rewrite length_map. apply length_producao_ajustada.
Qed.

Lemma length_receita_liquida : length (receita_liquida p) = n_anos.
Proof.
  unfold receita_liquida, royalties, receita_bruta.
  rewrite length_zip_with, !length_map, length_producao_anual.
  reflexivity.
Qed.

Lemma length_investimentos : length (investimentos p) = n_anos.
Proof.
  unfold investimentos. rewrite !length_assign. apply repeat_length.
Qed.

(** The three assignments [investimentos[0..2] = ...] are inside the list. *)
Lemma investimentos_indices : (2 < length (repeat 0 n_anos))%nat.
Proof. rewrite repeat_length, n_anos_eq. lia. Qed.

Lemma length_custos_totais : length (custos_totais p) = n_anos.
Proof.
  unfold custos_totais, custos_fixos, custos_variaveis, custos_polimero.
  rewrite length_zip_with3, length_assign, repeat_length, !length_map,
    length_producao_anual.
  reflexivity.
Qed.

Lemma length_loop_depreciacao (v : Q) (anos : list nat) (l0 : list Q) :
  length (fold_left (fun dep ano => Py.assign ano v dep) anos l0)
  = length l0.
Proof.
  revert l0. induction anos as [|a t IH]; intro l0; simpl; [reflexivity|].
  rewrite IH. apply length_assign.
Qed.

Lemma length_depreciacao : length (depreciacao p) = n_anos.
Proof.
  unfold depreciacao. rewrite length_loop_depreciacao. apply repeat_length.
Qed.

(** Every assignment [depreciacao[ano] = ...] is inside the list. *)
Lemma depreciacao_indices :
  Forall (fun ano => (ano < length (repeat 0 n_anos))%nat)
         (Py.range 1 (Nat.min 11 n_anos)).
Proof.
  apply Forall_forall. intros ano H. apply in_seq in H.
  rewrite repeat_length, n_anos_eq in *. simpl in H. lia.
Qed.

Lemma length_lucro_antes_impostos :
  length (lucro_antes_impostos p) = n_anos.
Proof.
  unfold lucro_antes_impostos.
  rewrite length_zip_with3, length_receita_liquida, length_custos_totais,
    length_depreciacao.
  reflexivity.
Qed.

Lemma length_impostos : length (impostos p) = n_anos.
Proof.
  unfold impostos. rewrite length_map. apply length_lucro_antes_impostos.
Qed.

Lemma length_lucro_liquido : length (lucro_liquido p) = n_anos.
Proof.
  unfold lucro_liquido.
  rewrite length_zip_with, length_lucro_antes_impostos, length_impostos.
  reflexivity.
Qed.

Lemma length_fluxo_caixa : length (fluxo_caixa p) = n_anos.
Proof.
  unfold fluxo_caixa.
  rewrite length_zip_with3, length_lucro_liquido, length_depreciacao,
    length_investimentos.
  reflexivity.
Qed.

Lemma length_fator_desconto : length fator_desconto = n_anos.
Proof.
  unfold fator_desconto. rewrite length_map, length_range. reflexivity.
Qed.

Lemma length_fluxo_caixa_descontado :
  length (fluxo_caixa_descontado p) = n_anos.
Proof.
  unfold fluxo_caixa_descontado.
  rewrite length_zip_with, length_fluxo_caixa, length_fator_desconto.
  reflexivity.
Qed.

Lemma length_fluxo_acumulado : length (fluxo_acumulado p) = n_anos.
Proof.
  unfold fluxo_acumulado. rewrite length_cumsum.
  apply length_fluxo_caixa_descontado.
Qed.

End Comprimentos.

(** ** When the model returns *)

Section Retorno.

Import Modelo.

(** [calcular_indicadores] raises exactly when the division
    [vpl / investimento] is reached with a zero divisor. *)
Lemma calcular_indicadores_None (p : Parametros) :
  calcular_indicadores p = None <-> 0 < vpl p /\ investimento p == 0.
Proof.
  unfold calcular_indicadores, tir.
  destruct (Qle_bool (vpl p) 0) eqn:E.
  - apply Qle_bool_iff in E. split; [discriminate|]. intros [H _]. lra.
  - apply Qle_bool_false in E.
    destruct (Py.div (vpl p) (investimento p)) eqn:D.
    + apply div_Some in D. split; [discriminate|]. tauto.
    + apply div_None in D. tauto.
Qed.

Lemma calcular_indicadores_Some (p : Parametros) :
  ~ investimento p == 0 -> exists r, calcular_indicadores p = Some r.
Proof.
  intro H. destruct (calcular_indicadores p) as [r|] eqn:E.
  - exists r. reflexivity.
  - apply calcular_indicadores_None in E. tauto.
Qed.

(** The fields of a returned dictionary are the local variables. *)
Lemma calcular_indicadores_campos (p : Parametros) (r : Indicadores) :
  calcular_indicadores p = Some r ->
  VPL r = vpl p /\ tir p = Some (TIR r) /\ Payback r = payback p /\
  Fluxo_Caixa r = fluxo_caixa p /\
  Fluxo_Caixa_Descontado r = fluxo_caixa_descontado p.
Proof.
  unfold calcular_indicadores. destruct (tir p) as [t|]; [|discriminate].
  intro H. injection H as <-. simpl. repeat split; reflexivity.
Qed.

(** The value of [tir] in each branch of the [if]. *)
Lemma tir_casos (p : Parametros) (t : Q) :
  tir p = Some t ->
  (vpl p <= 0 /\ t = 0) \/
  (0 < vpl p /\ ~ investimento p == 0 /\
   t = Py.min (vpl p / investimento p * 15 + 12) 50).
Proof.
  unfold tir. destruct (Qle_bool (vpl p) 0) eqn:E.
  - apply Qle_bool_iff in E. intro H. injection H as <-. left. auto.
  - apply Qle_bool_false in E.
    destruct (Py.div (vpl p) (investimento p)) as [q|] eqn:D;
      [|discriminate].
    apply div_Some in D. destruct D as [Hi ->].
    intro H. injection H as <-. right. auto.
Qed.

(** The base scenario has a non-zero investment, so the model returns on
    it, with the local variables as fields. *)
Lemma cenario_base_retorna :
  exists r, calcular_indicadores cenario_base = Some r /\
            VPL r = vpl cenario_base /\
            Payback r = payback cenario_base /\
            Fluxo_Caixa r = fluxo_caixa cenario_base /\
            Fluxo_Caixa_Descontado r = fluxo_caixa_descontado cenario_base.
Proof.
  destruct (calcular_indicadores_Some cenario_base) as [r E].
  { vm_compute. discriminate. }
  exists r. split; [exact E|].
  destruct (calcular_indicadores_campos _ _ E) as (A & _ & B & C & D).
  auto.
Qed.

End Retorno.

(** ** Indicators: TIR *)

Section TIR.

Import Modelo.

(** C1.  For every sample on which the model returns, the returned TIR
    is exactly 0 when the returned VPL is at most 0; when the returned
    VPL is positive, the TIR is [(VPL / investimento) * 15 + 12] passed
    through [min(_, 50)], hence it is that value or 50, and at most
    50. *)
Theorem C1_tir_formula (p : Parametros) (r : Indicadores) :
  calcular_indicadores p = Some r ->
  (VPL r <= 0 -> TIR r = 0) /\
  (0 < VPL r ->
   TIR r = Py.min (VPL r / investimento p * 15 + 12) 50 /\
   (VPL r / investimento p * 15 + 12 <= 50 ->
    TIR r = VPL r / investimento p * 15 + 12) /\
   (50 < VPL r / investimento p * 15 + 12 -> TIR r = 50) /\
   TIR r <= 50).
Proof.
  intro H. apply calcular_indicadores_campos in H.
  destruct H as (Hv & Ht & _). rewrite Hv.
  apply tir_casos in Ht. destruct Ht as [[Hle ->] | (Hlt & _ & ->)].
  - split; [reflexivity | intro; lra].
  - split; [intro; lra | intros _].
    destruct (min_cases (vpl p / investimento p * 15 + 12) 50)
      as [[Hc ->] | [Hc ->]].
    + repeat split; auto; try lra; intro; lra.
    + repeat split; auto; try lra; intro; lra.
Qed.

Lemma C1_tir_formula_witness :
  exists r, calcular_indicadores cenario_base = Some r /\
            0 < VPL r /\
            TIR r = VPL r / investimento cenario_base * 15 + 12 /\
            TIR r <= 50.
Proof.
  destruct cenario_base_retorna as (r & E & Hvpl & _).
  exists r.
  assert (Hv : 0 < VPL r).
  { rewrite Hvpl. vm_compute. reflexivity. }
  assert (Hc : VPL r / investimento cenario_base * 15 + 12 <= 50).
  { rewrite Hvpl. vm_compute. discriminate. }
  destruct (C1_tir_formula cenario_base r E) as [_ H].
  destruct (H Hv) as (_ & H1 & _ & H2).
  repeat split; auto.
Defined.

(** C10 (as amended).  For every sample with a positive investment the
    model returns; when the returned VPL is positive the returned TIR is
    at least 12 and at most 50, and when the returned VPL is at most 0
    the TIR is exactly 0.  So the TIR is never in the open interval
    (0, 12): it is exactly 0 or lies in [12, 50]. *)
Theorem C10_tir_acima_da_tma (p : Parametros) :
  0 < investimento p ->
  exists r, calcular_indicadores p = Some r /\
    (0 < VPL r -> 12 <= TIR r /\ TIR r <= 50) /\
    (VPL r <= 0 -> TIR r = 0) /\
    ~ (0 < TIR r /\ TIR r < 12) /\
    (TIR r = 0 \/ (12 <= TIR r /\ TIR r <= 50)).
Proof.
  intro Hi.
  destruct (calcular_indicadores_Some p) as [r E]; [lra|].
  exists r. split; [exact E|].
  apply calcular_indicadores_campos in E. destruct E as (Hv & Ht & _).
  rewrite Hv. apply tir_casos in Ht.
  destruct Ht as [[Hle ->] | (Hlt & _ & ->)].
  - split; [intro; lra|]. split; [reflexivity|].
    split; [intros [? ?]; lra | left; reflexivity].
  - assert (Hr : 0 < vpl p / investimento p).
    { apply Qlt_shift_div_l; lra. }
    destruct (min_cases (vpl p / investimento p * 15 + 12) 50)
      as [[Hc ->] | [Hc ->]].
    + split; [intro; lra|]. split; [intro; lra|].
      split; [intros [? ?]; lra | right; lra].
    + split; [intro; lra|]. split; [intro; lra|].
      split; [intros [? ?]; lra | right; lra].
Qed.

Lemma C10_tir_acima_da_tma_witness :
  exists r, calcular_indicadores cenario_base = Some r /\
    0 < VPL r /\ 12 <= TIR r /\ TIR r <= 50.
Proof.
  destruct (C10_tir_acima_da_tma cenario_base) as (r & E & H & _);
    [reflexivity|].
  exists r. split; [exact E|].
  assert (Hv : 0 < VPL r).
  { destruct (calcular_indicadores_campos _ _ E) as (-> & _).
    vm_compute. reflexivity. }
  split; [exact Hv | exact (H Hv)].
Defined.

End TIR.

Section TIRBinario64.

Import PrimFloat.

(** What the program does against C10 as stated.  The sample
    [tir_na_tma] lies inside the ranges of the default sidebar and of the
    driver.  On it the program returns VPL = 2^-29, which is positive,
    with a positive investment; [VPL / investimento * 15] is then less
    than half the distance between 12 and the next double, so the
    addition [... + 12] returns 12.  The returned TIR is 12: it is not
    above 12, and it lies in (0, 12]. *)
Lemma C10_contraexemplo :
  exists r,
    Binario64.calcular_indicadores Binario64.tir_na_tma = Some r /\
    Binario64.nas_faixas_padrao Binario64.tir_na_tma = true /\
    (0 <? Binario64.investimento Binario64.tir_na_tma)%float = true /\
    Binario64.VPL r = 0x1p-29%float /\
    (0 <? Binario64.VPL r)%float = true /\
    Binario64.TIR r = 12%float /\
    (12 <? Binario64.TIR r)%float = false /\
    (0 <? Binario64.TIR r)%float = true /\
    (Binario64.TIR r <=? 12)%float = true.
Proof.
  unfold Binario64.calcular_indicadores.
  assert (E : Binario64.tir Binario64.tir_na_tma = Some 12%float)
    by (vm_compute; reflexivity).
  rewrite E. eexists. split; [reflexivity|].
  cbn [Binario64.VPL Binario64.TIR].
  repeat split; vm_compute; reflexivity.
Qed.

End TIRBinario64.

(** ** VPL and the discounted schedule *)

Section VPL.

Import Modelo.

Lemma soma_dos_anos_ext (n : nat) (f g : nat -> Q) :
  (forall t, (t < n)%nat -> f t == g t) ->
  soma_dos_anos n f == soma_dos_anos n g.
Proof.
  induction n as [|k IH]; intro H; simpl.
  - reflexivity.
  - rewrite IH by (intros; apply H; lia).
    rewrite (H k) by lia. reflexivity.
Qed.

Lemma sum_snoc (l : list Q) (x : Q) : Py.sum (l ++ [x]) = Py.sum l + x.
Proof. unfold Py.sum. rewrite fold_left_app. reflexivity. Qed.

(** Python's [sum] of a list is the sum of its entries over the indices. *)
Lemma sum_soma_dos_anos (l : list Q) :
  Py.sum l == soma_dos_anos (length l) (fun t => nth t l 0).
Proof.
  induction l as [|x l IH] using rev_ind.
  - reflexivity.
  - rewrite sum_snoc, length_app, Nat.add_1_r. simpl.
    rewrite nth_middle, IH.
    apply Qplus_comp; [|reflexivity].
    apply soma_dos_anos_ext. intros t Ht.
    rewrite app_nth1 by exact Ht. reflexivity.
Qed.

(** C6.  For every result returned by the model, the discounted schedule
    of the result has one entry per year 0..horizon, and the returned VPL
    is Python's [sum] of that very schedule, hence the sum of its entries
    over the years 0..horizon; in particular it is within the relative
    tolerance 1e-6 of that sum. *)
Theorem C6_vpl_soma_do_fluxo (p : Parametros) (r : Indicadores) :
  calcular_indicadores p = Some r ->
  length (Fluxo_Caixa_Descontado r) = (anos_projeto parametros_base + 1)%nat /\
  VPL r = Py.sum (Fluxo_Caixa_Descontado r) /\
  VPL r == soma_dos_anos (anos_projeto parametros_base + 1)
             (fun ano => nth ano (Fluxo_Caixa_Descontado r) 0) /\
  Qabs (VPL r - soma_dos_anos (anos_projeto parametros_base + 1)
                  (fun ano => nth ano (Fluxo_Caixa_Descontado r) 0))
  <= (1 # 1000000)
     * Qabs (soma_dos_anos (anos_projeto parametros_base + 1)
               (fun ano => nth ano (Fluxo_Caixa_Descontado r) 0)).
Proof.
  intro H. apply calcular_indicadores_campos in H.
  destruct H as (Hv & _ & _ & _ & Hd). rewrite Hv, Hd.
  assert (Hs : vpl p == soma_dos_anos (anos_projeto parametros_base + 1)
                          (fun ano => nth ano (fluxo_caixa_descontado p) 0)).
  { unfold vpl. rewrite sum_soma_dos_anos, length_fluxo_caixa_descontado.
    reflexivity. }
  split; [apply length_fluxo_caixa_descontado|].
  split; [reflexivity|].
  split; [exact Hs|].
  rewrite <- Hs.
  setoid_replace (vpl p - vpl p) with 0 by ring.
  simpl (Qabs 0).
  apply Qmult_le_0_compat; [discriminate | apply Qabs_nonneg].
Qed.

Lemma C6_vpl_soma_do_fluxo_witness :
  exists r, calcular_indicadores cenario_base = Some r /\
            VPL r = Py.sum (Fluxo_Caixa_Descontado r) /\
            length (Fluxo_Caixa_Descontado r) = 16%nat.
Proof.
  destruct cenario_base_retorna as (r & E & _).
  exists r. split; [exact E|].
  destruct (C6_vpl_soma_do_fluxo cenario_base r E) as (Hl & Hs & _).
  split; [exact Hs | exact Hl].
Defined.

End VPL.

(** ** Taxes *)

Section Impostos.

Import Modelo.

(** C8.  For every sample and every project year, the tax of the year is
    [max(0, 34% of the taxable income)]: it is never negative, it is
    exactly 0 when the taxable income is negative or zero, and it is 34%
    of the taxable income when that is positive. *)
Theorem C8_imposto_nao_negativo (p : Parametros) (ano : nat) :
  (ano <= anos_projeto parametros_base)%nat ->
  nth ano (impostos p) 0
  = Py.max 0 (nth ano (lucro_antes_impostos p) 0 * (34 # 100)) /\
  0 <= nth ano (impostos p) 0 /\
  (nth ano (lucro_antes_impostos p) 0 <= 0 -> nth ano (impostos p) 0 = 0) /\
  (0 < nth ano (lucro_antes_impostos p) 0 ->
   nth ano (impostos p) 0 = nth ano (lucro_antes_impostos p) 0 * (34 # 100)).
Proof.
  intro Hano.
  assert (Hlen : (ano < length (impostos p))%nat).
  { rewrite length_impostos. unfold n_anos. lia. }
  assert (E : nth ano (impostos p) 0
              = Py.max 0 (nth ano (lucro_antes_impostos p) 0 * (34 # 100))).
  { rewrite (nth_indep _ 0 (Py.max 0 (0 * (34 # 100))) Hlen).
    unfold impostos.
    apply (map_nth (fun l => Py.max 0 (l * (34 # 100)))). }
  rewrite E. split; [reflexivity|].
  destruct (max_cases 0 (nth ano (lucro_antes_impostos p) 0 * (34 # 100)))
    as [[Hc ->] | [Hc ->]].
  - split; [lra|]. split; [reflexivity | intro; lra].
  - split; [lra|]. split; [intro; lra | reflexivity].
Qed.

Lemma C8_imposto_nao_negativo_witness :
  0 <= nth 0 (impostos cenario_base) 0 /\
  nth 0 (impostos cenario_base) 0 = 0 /\
  nth 3 (impostos cenario_base) 0
  = nth 3 (lucro_antes_impostos cenario_base) 0 * (34 # 100).
Proof.
  assert (H0 : (0 <= anos_projeto parametros_base)%nat) by (simpl; lia).
  assert (H3 : (3 <= anos_projeto parametros_base)%nat) by (simpl; lia).
  destruct (C8_imposto_nao_negativo cenario_base 0 H0) as (_ & A & B & _).
  destruct (C8_imposto_nao_negativo cenario_base 3 H3) as (_ & _ & _ & C).
  split; [exact A|]. split.
  - apply B. vm_compute. discriminate.
  - apply C. vm_compute. reflexivity.
Defined.

End Impostos.

(** ** The base scenario *)

Section Cenario.

Import Modelo.

(** C4.  With price 70, investment 45,000,000, efficiency 15, cost 8 and
    decline 5 under the fixed baseline (horizon 15, TMA 12, polymer cost
    2.2, fixed cost 1,500,000, baseline efficiency 15), the efficiency
    factor is 1, the model returns, the year-0 cash flow is -22,500,000
    (half of the investment, with no revenue and no cost in year 0), and
    the year-5 daily production is 2000 * 1 * (1 - 0.05) = 1900, the
    year-4 production 2000 declined once. *)
Theorem C4_cenario_base :
  anos_projeto parametros_base = 15%nat /\
  taxa_minima_atratividade parametros_base == 12 /\
  custo_polimero parametros_base == 22 # 10 /\
  custos_fixos_anuais parametros_base == 1500000 /\
  incremento_recuperacao parametros_base == 15 /\
  fator_eficiencia cenario_base == 1 /\
  (exists r, calcular_indicadores cenario_base = Some r /\
             length (Fluxo_Caixa r) = 16%nat /\
             nth 0 (Fluxo_Caixa r) 0 == - 22500000 /\
             nth 0 (Fluxo_Caixa r) 0
             == - ((5 # 10) * investimento cenario_base)) /\
  nth 0 (receita_bruta cenario_base) 0 == 0 /\
  nth 0 (custos_totais cenario_base) 0 == 0 /\
  length (producao_ajustada cenario_base) = 16%nat /\
  nth 4 (producao_ajustada cenario_base) 0 == 2000 * 1 /\
  nth 5 (producao_ajustada cenario_base) 0 == 2000 * 1 * (1 - 5 / 100) /\
  nth 5 (producao_ajustada cenario_base) 0 == 1900 /\
  nth 5 (producao_ajustada cenario_base) 0
  == nth 4 (producao_ajustada cenario_base) 0 * (1 - 5 / 100).
Proof.
  repeat match goal with |- _ /\ _ => split end;
    try (vm_compute; reflexivity).
  destruct cenario_base_retorna as (r & E & _ & _ & Hf & _).
  exists r. split; [exact E|]. rewrite Hf.
  split; [apply length_fluxo_caixa|].
  split; vm_compute; reflexivity.
Qed.

End Cenario.

(** ** Production curve *)

Section Producao.

Import Modelo.

(** The appending loop over the years [a, a+1, ..., a+k-1], started from a
    list of length [a >= 1]: the entries already there are kept, and each
    appended year is the previous year times [q]. *)
Lemma loop_producao_nth (q : Q) (k : nat) :
  forall (l0 : list Q) (a : nat),
    length l0 = a -> (1 <= a)%nat ->
    let l := fold_left (fun producao ano =>
                          producao ++ [nth (ano - 1) producao 0 * q])
                       (seq a k) l0 in
    (forall i, (i < a)%nat -> nth i l 0 = nth i l0 0) /\
    (forall y, (a <= y < a + k)%nat ->
               nth y l 0 = nth (y - 1) l 0 * q).
Proof.
  induction k as [|k IH]; intros l0 a Hlen Ha; cbv zeta.
  - simpl. split; [reflexivity | intros; lia].
  - simpl fold_left.
    specialize (IH (l0 ++ [nth (a - 1) l0 0 * q]) (S a)).
    cbv zeta in IH.
    destruct IH as [Hkeep Hstep].
    { rewrite length_app. simpl. lia. }
    { lia. }
    split.
    + intros i Hi. rewrite Hkeep by lia. apply app_nth1. lia.
    + intros y Hy. destruct (Nat.eq_dec y a) as [->|Hne].
      * rewrite !Hkeep by lia.
        rewrite (app_nth2 l0) by lia.
        rewrite Hlen, Nat.sub_diag.
        rewrite (app_nth1 l0) by lia. reflexivity.
      * apply Hstep. lia.
Qed.

(** Years 0..4: the base ramp scaled by the efficiency factor. *)
Lemma producao_rampa (p : Parametros) (ano : nat) :
  (ano < 5)%nat ->
  nth ano (producao_ajustada p) 0
  = nth ano producao_base 0 * fator_eficiencia p.
Proof.
  intro H. unfold producao_ajustada.
  destruct (loop_producao_nth (1 - declinio p / 100) (n_anos - 5)
              (map (fun b => b * fator_eficiencia p) producao_base) 5%nat)
    as [Hkeep _]; [reflexivity | lia |].
  unfold Py.range. rewrite (Hkeep ano H).
  do 5 (destruct ano as [|ano]; [reflexivity|]). lia.
Qed.

(** Years 5..horizon: the previous year declined once. *)
Lemma producao_recorrencia (p : Parametros) (ano : nat) :
  (5 <= ano <= anos_projeto parametros_base)%nat ->
  nth ano (producao_ajustada p) 0
  = nth (ano - 1) (producao_ajustada p) 0 * (1 - declinio p / 100).
Proof.
  intro H. unfold producao_ajustada.
  destruct (loop_producao_nth (1 - declinio p / 100) (n_anos - 5)
              (map (fun b => b * fator_eficiencia p) producao_base) 5%nat)
    as [_ Hstep]; [reflexivity | lia |].
  apply Hstep. unfold n_anos. simpl in *. lia.
Qed.

Lemma fator_eficiencia_sinal (p : Parametros) :
  (0 <= eficiencia p -> 0 <= fator_eficiencia p) /\
  (0 < eficiencia p -> 0 < fator_eficiencia p).
Proof.
  unfold fator_eficiencia. simpl. split; intro H.
  - apply Qle_shift_div_l; [reflexivity | lra].
  - apply Qlt_shift_div_l; [reflexivity | lra].
Qed.

Lemma producao_nao_negativa (p : Parametros) :
  0 <= eficiencia p -> declinio p <= 100 ->
  forall ano, (ano <= anos_projeto parametros_base)%nat ->
              0 <= nth ano (producao_ajustada p) 0.
Proof.
  intros He Hd ano. induction ano as [|ano IH]; intro Hano.
  - rewrite producao_rampa by lia. simpl.
    destruct (fator_eficiencia_sinal p) as [H _]. specialize (H He). lra.
  - destruct (Nat.lt_ge_cases (S ano) 5) as [L|L].
    + rewrite producao_rampa by exact L.
      destruct (fator_eficiencia_sinal p) as [H _]. specialize (H He).
      do 5 (destruct ano as [|ano]; [simpl; lra|]). lia.
    + rewrite producao_recorrencia by lia.
      replace (S ano - 1)%nat with ano by lia.
      apply Qmult_le_0_compat; [apply IH; lia|].
      assert (declinio p / 100 <= 1) by (apply Qle_shift_div_r; lra).
      lra.
Qed.

Lemma producao_positiva (p : Parametros) :
  0 < eficiencia p -> declinio p < 100 ->
  forall ano, (4 <= ano <= anos_projeto parametros_base)%nat ->
              0 < nth ano (producao_ajustada p) 0.
Proof.
  intros He Hd ano. induction ano as [|ano IH]; intro Hano; [lia|].
  destruct (Nat.eq_dec (S ano) 4) as [E|NE].
  - rewrite E, producao_rampa by lia. simpl.
    destruct (fator_eficiencia_sinal p) as [_ H]. specialize (H He). lra.
  - rewrite producao_recorrencia by lia.
    replace (S ano - 1)%nat with ano by lia.
    apply Qmult_lt_0_compat; [apply IH; lia|].
    assert (declinio p / 100 < 1) by (apply Qlt_shift_div_r; lra).
    lra.
Qed.

(** C9 (as amended).  For every sample with efficiency >= 0 and decline
    rate in [0, 100), production is non-negative at every year
    0..horizon and, for every year from 5 to the horizon,
    production[year] <= production[year-1].  For the samples the driver
    draws under the sliders, efficiency in [9, 20] and decline rate in
    [2, 10], production is positive and production[year] <
    production[year-1] for every year from 5 to the horizon. *)
Theorem C9_declinio_da_producao (p : Parametros) :
  0 <= eficiencia p -> 0 <= declinio p -> declinio p < 100 ->
  (forall ano, (ano <= anos_projeto parametros_base)%nat ->
               0 <= nth ano (producao_ajustada p) 0) /\
  (forall ano, (5 <= ano <= anos_projeto parametros_base)%nat ->
               nth ano (producao_ajustada p) 0
               <= nth (ano - 1) (producao_ajustada p) 0) /\
  (9 <= eficiencia p <= 20 -> 2 <= declinio p <= 10 ->
   forall ano, (5 <= ano <= anos_projeto parametros_base)%nat ->
               0 < nth ano (producao_ajustada p) 0 /\
               nth ano (producao_ajustada p) 0
               < nth (ano - 1) (producao_ajustada p) 0).
Proof.
  intros He Hd0 Hd.
  assert (Hnn : forall ano, (ano <= anos_projeto parametros_base)%nat ->
                            0 <= nth ano (producao_ajustada p) 0).
  { apply producao_nao_negativa; lra. }
  split; [exact Hnn|]. split.
  - intros ano Hano.
    rewrite producao_recorrencia by exact Hano.
    assert (Hprev : 0 <= nth (ano - 1) (producao_ajustada p) 0).
    { apply Hnn. lia. }
    assert (Hq : 0 <= declinio p / 100) by (apply Qle_shift_div_l; lra).
    generalize dependent (nth (ano - 1) (producao_ajustada p) 0).
    intros x Hx. nra.
  - intros He' Hd' ano Hano.
    assert (Hpos : forall a, (4 <= a <= anos_projeto parametros_base)%nat ->
                             0 < nth a (producao_ajustada p) 0).
    { apply producao_positiva; lra. }
    split; [apply Hpos; lia|].
    rewrite producao_recorrencia by exact Hano.
    assert (Hprev : 0 < nth (ano - 1) (producao_ajustada p) 0).
    { apply Hpos. lia. }
    assert (Hq : 0 < declinio p / 100) by (apply Qlt_shift_div_l; lra).
    generalize dependent (nth (ano - 1) (producao_ajustada p) 0).
    intros x Hx. nra.
Qed.

Lemma C9_declinio_da_producao_witness :
  (forall ano, (ano <= 15)%nat ->
               0 <= nth ano (producao_ajustada cenario_base) 0) /\
  nth 5 (producao_ajustada cenario_base) 0
  <= nth 4 (producao_ajustada cenario_base) 0 /\
  0 < nth 5 (producao_ajustada cenario_base) 0 /\
  nth 5 (producao_ajustada cenario_base) 0
  < nth 4 (producao_ajustada cenario_base) 0.
Proof.
  destruct (C9_declinio_da_producao cenario_base) as (H0 & H1 & H2);
    [discriminate | discriminate | reflexivity |].
  split; [exact H0|].
  split; [apply (H1 5%nat); simpl; lia|].
  assert (He : 9 <= eficiencia cenario_base <= 20) by (split; discriminate).
  assert (Hd : 2 <= declinio cenario_base <= 10) by (split; discriminate).
  destruct (H2 He Hd 5%nat) as [A B]; [simpl; lia|].
  split; [exact A | exact B].
Defined.

End Producao.

Section ProducaoBinario64.

Import Modelo.
Import PrimFloat.

(** What the program does against C9 as stated.  With efficiency 0 the
    decline rate 5 is positive and production is 0 at years 4 and 5, so
    it does not decrease at year 5.  With decline rate 100 production is
    0 at years 5 and 6, so it does not decrease at year 6.  With
    efficiency -15 and decline rate 5, in [0, 100), production is
    negative at year 5.  With the positive decline rate 2^-50, the
    program's [1 - declinio / 100] is the double 1, and production is
    2000 at every year from 4 to 15: it does not decrease at year 5. *)
Lemma C9_contraexemplo :
  (0 < declinio sem_eficiencia /\
   nth 4 (producao_ajustada sem_eficiencia) 0 == 0 /\
   nth 5 (producao_ajustada sem_eficiencia) 0 == 0 /\
   ~ nth 5 (producao_ajustada sem_eficiencia) 0
     < nth 4 (producao_ajustada sem_eficiencia) 0) /\
  (0 < declinio declinio_total /\
   nth 5 (producao_ajustada declinio_total) 0 == 0 /\
   nth 6 (producao_ajustada declinio_total) 0 == 0 /\
   ~ nth 6 (producao_ajustada declinio_total) 0
     < nth 5 (producao_ajustada declinio_total) 0) /\
  (0 <= declinio eficiencia_negativa /\
   declinio eficiencia_negativa < 100 /\
   nth 5 (producao_ajustada eficiencia_negativa) 0 == - 1900 /\
   nth 5 (producao_ajustada eficiencia_negativa) 0 < 0) /\
  ((0 <? Binario64.declinio Binario64.declinio_minimo)%float = true /\
   (Binario64.declinio Binario64.declinio_minimo <? 100)%float = true /\
   (1 - Binario64.declinio Binario64.declinio_minimo / 100 =? 1)%float
   = true /\
   skipn 4 (Binario64.producao_ajustada Binario64.declinio_minimo)
   = repeat 2000%float 12 /\
   (nth 5 (Binario64.producao_ajustada Binario64.declinio_minimo) 0%float
    <? nth 4 (Binario64.producao_ajustada Binario64.declinio_minimo)
           0%float)%float = false).
Proof.
  repeat split; try (vm_compute; reflexivity);
    try (vm_compute; discriminate).
Qed.

End ProducaoBinario64.

(** ** Year 0 of the schedule *)

Section Ano0.

Import Modelo.

Lemma nth_zip_with {A B C} (f : A -> B -> C) l1 l2 (i : nat) d1 d2 d :
  (i < length l1)%nat -> (i < length l2)%nat ->
  nth i (Py.zip_with f l1 l2) d = f (nth i l1 d1) (nth i l2 d2).
Proof.
  revert l2 i. induction l1 as [|a t IH]; intros [|b t2] [|i] H1 H2;
    simpl in *; try lia; [reflexivity|].
  apply IH; lia.
Qed.

Lemma nth_zip_with3 {A B C D} (f : A -> B -> C -> D) l1 l2 l3 (i : nat)
  d1 d2 d3 d :
  (i < length l1)%nat -> (i < length l2)%nat -> (i < length l3)%nat ->
  nth i (Py.zip_with3 f l1 l2 l3) d
  = f (nth i l1 d1) (nth i l2 d2) (nth i l3 d3).
Proof.
  revert l2 l3 i.
  induction l1 as [|a t IH]; intros [|b t2] [|c t3] [|i] H1 H2 H3;
    simpl in *; try lia; [reflexivity|].
  apply IH; lia.
Qed.

Lemma nth_map_Q (f : Q -> Q) (l : list Q) (i : nat) :
  (i < length l)%nat -> nth i (map f l) 0 = f (nth i l 0).
Proof.
  intro H. rewrite (nth_indep _ 0 (f 0)) by (rewrite length_map; exact H).
  apply map_nth.
Qed.

Lemma nth_cumsum_0 (l : list Q) : nth 0 (Py.cumsum l) 0 = nth 0 l 0.
Proof. destruct l; reflexivity. Qed.

Variable p : Parametros.

Lemma ano0_dentro : (0 < n_anos)%nat.
Proof. unfold n_anos. lia. Qed.

Lemma producao_anual_ano0 : nth 0 (producao_anual p) 0 == 0.
Proof.
  unfold producao_anual.
  rewrite nth_map_Q by (rewrite length_producao_ajustada; apply ano0_dentro).
  rewrite producao_rampa by lia. simpl. ring.
Qed.

Lemma receita_bruta_ano0 : nth 0 (receita_bruta p) 0 == 0.
Proof.
  unfold receita_bruta.
  rewrite nth_map_Q by (rewrite length_producao_anual; apply ano0_dentro).
  rewrite producao_anual_ano0. ring.
Qed.

Lemma receita_liquida_ano0 : nth 0 (receita_liquida p) 0 == 0.
Proof.
  assert (Hb : (0 < length (receita_bruta p))%nat).
  { unfold receita_bruta. rewrite length_map, length_producao_anual.
    apply ano0_dentro. }
  unfold receita_liquida, royalties.
  rewrite (nth_zip_with _ _ _ 0%nat 0 0)
    by (rewrite ?length_map; exact Hb).
  rewrite nth_map_Q by exact Hb.
  rewrite receita_bruta_ano0. ring.
Qed.

Lemma custos_totais_ano0 : nth 0 (custos_totais p) 0 == 0.
Proof.
  unfold custos_totais, custos_variaveis, custos_polimero.
  rewrite (nth_zip_with3 _ _ _ _ 0%nat 0 0 0);
    [| unfold custos_fixos; rewrite length_assign, repeat_length;
       apply ano0_dentro
     | rewrite length_map, length_producao_anual; apply ano0_dentro
     | rewrite length_map, length_producao_anual; apply ano0_dentro ].
  rewrite !nth_map_Q by (rewrite length_producao_anual; apply ano0_dentro).
  rewrite producao_anual_ano0.
  change (nth 0 custos_fixos 0) with 0. ring.
Qed.

Lemma depreciacao_ano0 : nth 0 (depreciacao p) 0 = 0.
Proof. reflexivity. Qed.

Lemma investimentos_ano0 :
  nth 0 (investimentos p) 0 = investimento p * (5 # 10).
Proof. reflexivity. Qed.

Lemma lucro_antes_impostos_ano0 : nth 0 (lucro_antes_impostos p) 0 == 0.
Proof.
  unfold lucro_antes_impostos.
  rewrite (nth_zip_with3 _ _ _ _ 0%nat 0 0 0);
    [| rewrite length_receita_liquida; apply ano0_dentro
     | rewrite length_custos_totais; apply ano0_dentro
     | rewrite length_depreciacao; apply ano0_dentro ].
  rewrite receita_liquida_ano0, custos_totais_ano0, depreciacao_ano0. ring.
Qed.

Lemma impostos_ano0 : nth 0 (impostos p) 0 == 0.
Proof.
  unfold impostos.
  rewrite nth_map_Q
    by (rewrite length_lucro_antes_impostos; apply ano0_dentro).
  pose proof lucro_antes_impostos_ano0 as H0.
  destruct (max_cases 0 (nth 0 (lucro_antes_impostos p) 0 * (34 # 100)))
    as [[_ ->] | [Hc _]]; [reflexivity | lra].
Qed.

Lemma lucro_liquido_ano0 : nth 0 (lucro_liquido p) 0 == 0.
Proof.
  unfold lucro_liquido.
  rewrite (nth_zip_with _ _ _ 0%nat 0 0);
    [| rewrite length_lucro_antes_impostos; apply ano0_dentro
     | rewrite length_impostos; apply ano0_dentro ].
  rewrite lucro_antes_impostos_ano0, impostos_ano0. ring.
Qed.

(** The year-0 cash flow is minus half of the investment. *)
Lemma fluxo_caixa_ano0 :
  nth 0 (fluxo_caixa p) 0 == - (investimento p * (5 # 10)).
Proof.
  unfold fluxo_caixa.
  rewrite (nth_zip_with3 _ _ _ _ 0%nat 0 0 0);
    [| rewrite length_lucro_liquido; apply ano0_dentro
     | rewrite length_depreciacao; apply ano0_dentro
     | rewrite length_investimentos; apply ano0_dentro ].
  rewrite lucro_liquido_ano0, depreciacao_ano0, investimentos_ano0. ring.
Qed.

Lemma fluxo_acumulado_ano0 :
  nth 0 (fluxo_acumulado p) 0 == - (investimento p * (5 # 10)).
Proof.
  unfold fluxo_acumulado, fluxo_caixa_descontado.
  rewrite nth_cumsum_0.
  rewrite (nth_zip_with _ _ _ 0%nat 0 0);
    [| rewrite length_fluxo_caixa; apply ano0_dentro
     | rewrite length_fator_desconto; apply ano0_dentro ].
  rewrite fluxo_caixa_ano0.
  change (nth 0 fator_desconto 0)
    with (1 / (1 + taxa_minima_atratividade parametros_base / 100) ^ 0).
  simpl Qpower. field.
Qed.

End Ano0.

(** ** Discounted payback *)

Section Payback.

Import Modelo.

Lemma forallb_negativos (acc : list Q) :
  forallb (fun f => Py.Qltb f 0) acc = true <->
  (forall i, (i < length acc)%nat -> nth i acc 0 < 0).
Proof.
  rewrite forallb_forall. split.
  - intros H i Hi. apply Qltb_true, H, nth_In, Hi.
  - intros H x Hx. apply Qltb_true.
    destruct (In_nth _ _ 0 Hx) as (i & Hi & <-). apply H, Hi.
Qed.

(** The test of the loop body is the crossing condition. *)
Lemma teste_cruza (acc : list Q) (i : nat) :
  Py.Qltb (nth (i - 1) acc 0) 0 && Qle_bool 0 (nth i acc 0) = true
  <-> cruza acc i.
Proof.
  unfold cruza. rewrite andb_true_iff, Qltb_true, Qle_bool_iff. tauto.
Qed.

(** The loop breaks at the first index of the range that crosses. *)
Lemma cruzamento_Some (acc : list Q) (k a : nat) (v : Q) :
  cruzamento acc (seq a k) = Some v ->
  exists i, (a <= i < a + k)%nat /\ cruza acc i /\
            (forall j, (a <= j < i)%nat -> ~ cruza acc j) /\
            v = interpolacao acc i.
Proof.
  revert a. induction k as [|k IH]; intros a; simpl; [discriminate|].
  destruct (Py.Qltb (nth (a - 1) acc 0) 0 && Qle_bool 0 (nth a acc 0))
    eqn:T.
  - intro H. injection H as <-. exists a.
    apply teste_cruza in T.
    split; [lia|]. split; [exact T|]. split; [intros; lia | reflexivity].
  - intro H. destruct (IH _ H) as (i & Hi & Hc & Hf & Hv).
    exists i. split; [lia|]. split; [exact Hc|]. split; [|exact Hv].
    intros j Hj Hcj.
    destruct (Nat.eq_dec j a) as [->|Hne].
    + apply teste_cruza in Hcj. congruence.
    + apply (Hf j); [lia | exact Hcj].
Qed.

(** The loop ends without [break] when no index of the range crosses. *)
Lemma cruzamento_None (acc : list Q) (k a : nat) :
  cruzamento acc (seq a k) = None <->
  (forall i, (a <= i < a + k)%nat -> ~ cruza acc i).
Proof.
  revert a. induction k as [|k IH]; intros a; simpl.
  - split; [intros _ i Hi; lia | reflexivity].
  - destruct (Py.Qltb (nth (a - 1) acc 0) 0 && Qle_bool 0 (nth a acc 0))
      eqn:T.
    + split; [discriminate|]. intro H. exfalso.
      apply (H a); [lia | apply teste_cruza, T].
    + rewrite IH. split; intros H i Hi.
      * destruct (Nat.eq_dec i a) as [->|Hne].
        -- intro Hc. apply teste_cruza in Hc. congruence.
        -- apply H. lia.
      * apply H. lia.
Qed.

(** At a crossing the divisor of the interpolation is positive, and the
    fraction lies in (0, 1]. *)
Lemma fracao_limites (acc : list Q) (i : nat) :
  cruza acc i ->
  0 < Qabs (nth i acc 0 - nth (i - 1) acc 0) /\
  0 < fracao acc i /\ fracao acc i <= 1.
Proof.
  unfold cruza, fracao. intros [Hn Hp].
  assert (Ha : Qabs (nth (i - 1) acc 0) == - nth (i - 1) acc 0).
  { apply Qabs_neg. lra. }
  assert (Hd : Qabs (nth i acc 0 - nth (i - 1) acc 0)
               == nth i acc 0 - nth (i - 1) acc 0).
  { apply Qabs_pos. lra. }
  rewrite Ha, Hd. split; [lra|]. split.
  - apply Qlt_shift_div_l; lra.
  - apply Qle_shift_div_r; lra.
Qed.

Lemma inject_pred (i : nat) :
  (1 <= i)%nat ->
  0 <= inject_Z (Z.of_nat i - 1) /\
  inject_Z (Z.of_nat i - 1) + 1 == inject_Z (Z.of_nat i).
Proof.
  intro Hi. split.
  - change 0 with (inject_Z 0). rewrite <- Zle_Qle. lia.
  - change 1 with (inject_Z 1). rewrite <- inject_Z_plus.
    apply inject_Z_injective. lia.
Qed.

Lemma interpolacao_limites (acc : list Q) (i : nat) :
  (1 <= i)%nat -> cruza acc i ->
  inject_Z (Z.of_nat i - 1) < interpolacao acc i /\
  interpolacao acc i <= inject_Z (Z.of_nat i).
Proof.
  intros Hi Hc. unfold interpolacao.
  destruct (fracao_limites acc i Hc) as (_ & Hf0 & Hf1).
  destruct (inject_pred i Hi) as [H0 H1]. lra.
Qed.

(** The three outcomes of the payback block. *)
Lemma payback_de_casos (acc : list Q) :
  ((forall i, (i < length acc)%nat -> nth i acc 0 < 0) /\
   payback_de acc = inject_Z (Z.of_nat (anos_projeto parametros_base))) \/
  (exists i, (1 <= i < length acc)%nat /\ cruza acc i /\
             (forall j, (1 <= j < i)%nat -> ~ cruza acc j) /\
             payback_de acc = interpolacao acc i) \/
  ((forall i, (1 <= i < length acc)%nat -> ~ cruza acc i) /\
   ~ (forall i, (i < length acc)%nat -> nth i acc 0 < 0) /\
   payback_de acc = 0).
Proof.
  unfold payback_de.
  destruct (forallb (fun f => Py.Qltb f 0) acc) eqn:A.
  - left. split; [apply forallb_negativos, A | reflexivity].
  - right.
    assert (NA : ~ (forall i, (i < length acc)%nat -> nth i acc 0 < 0)).
    { intro H. apply (proj2 (forallb_negativos acc)) in H. congruence. }
    unfold Py.range.
    destruct (cruzamento acc (seq 1 (length acc - 1))) as [v|] eqn:C.
    + left. apply cruzamento_Some in C.
      destruct C as (i & Hi & Hc & Hf & Hv).
      exists i. split; [lia|]. auto.
    + right. rewrite cruzamento_None in C.
      split; [|auto]. intros i Hi. apply C. lia.
Qed.

(** Without a crossing, a cumulative that starts negative stays negative. *)
Lemma sem_cruzamento_negativo (acc : list Q) :
  (forall i, (1 <= i < length acc)%nat -> ~ cruza acc i) ->
  nth 0 acc 0 < 0 ->
  forall i, (i < length acc)%nat -> nth i acc 0 < 0.
Proof.
  intros Hn H0 i. induction i as [|i IH]; intro Hi; [exact H0|].
  destruct (Qlt_le_dec (nth (S i) acc 0) 0) as [L|L]; [exact L|].
  exfalso. apply (Hn (S i)); [lia|].
  unfold cruza. replace (S i - 1)%nat with i by lia.
  split; [apply IH; lia | exact L].
Qed.

Lemma acumulado_de_retorno (p : Parametros) (r : Indicadores) :
  calcular_indicadores p = Some r ->
  acumulado_de r = fluxo_acumulado p /\
  Payback r = payback_de (acumulado_de r) /\
  length (acumulado_de r) = (anos_projeto parametros_base + 1)%nat.
Proof.
  intro H. apply calcular_indicadores_campos in H.
  destruct H as (_ & _ & Hp & _ & Hd).
  assert (Ha : acumulado_de r = fluxo_acumulado p).
  { unfold acumulado_de, fluxo_acumulado. rewrite Hd. reflexivity. }
  rewrite Ha, Hp, length_fluxo_acumulado.
  split; [reflexivity|]. split; reflexivity.
Qed.

(** C3 (as amended).  For every result returned by the model, with [acc]
    the cumulative discounted cash flow of the result (one entry per year
    0..horizon): if [i] is the first year at which [acc] goes from
    negative to non-negative, the payback is
    [(i-1) + |acc[i-1]| / |acc[i] - acc[i-1]|]; if [acc] is negative at
    every year up to the horizon, the payback is the horizon; and the
    payback is 0 whenever [acc] is non-negative at year 0 and at no later
    year goes from negative to non-negative, in particular when [acc] is
    non-negative at every year.  A payback of 0 is never returned when
    [acc] is negative at every year. *)
Theorem C3_payback_descontado (p : Parametros) (r : Indicadores) :
  calcular_indicadores p = Some r ->
  length (acumulado_de r) = (anos_projeto parametros_base + 1)%nat /\
  (forall i, (1 <= i <= anos_projeto parametros_base)%nat ->
     cruza (acumulado_de r) i ->
     (forall j, (1 <= j < i)%nat -> ~ cruza (acumulado_de r) j) ->
     Payback r
     = inject_Z (Z.of_nat i - 1)
       + Qabs (nth (i - 1) (acumulado_de r) 0)
         / Qabs (nth i (acumulado_de r) 0 - nth (i - 1) (acumulado_de r) 0))
  /\
  ((forall ano, (ano <= anos_projeto parametros_base)%nat ->
      nth ano (acumulado_de r) 0 < 0) ->
   Payback r = inject_Z (Z.of_nat (anos_projeto parametros_base))) /\
  ((forall ano, (ano <= anos_projeto parametros_base)%nat ->
      0 <= nth ano (acumulado_de r) 0) ->
   Payback r = 0) /\
  (0 <= nth 0 (acumulado_de r) 0 ->
   (forall i, (1 <= i <= anos_projeto parametros_base)%nat ->
      ~ cruza (acumulado_de r) i) ->
   Payback r = 0) /\
  (Payback r == 0 ->
   ~ (forall ano, (ano <= anos_projeto parametros_base)%nat ->
        nth ano (acumulado_de r) 0 < 0)).
Proof.
  intro H. destruct (acumulado_de_retorno p r H) as (_ & -> & Hlen).
  set (acc := acumulado_de r) in *.
  split; [exact Hlen|].
  destruct (payback_de_casos acc)
    as [[Hneg ->] | [(i' & Hi' & Hc' & Hf' & ->) | (Hnc & Hnn & ->)]].
  - (* negative at every year *)
    split.
    { intros i Hi [_ Hc] _. exfalso.
      assert (nth i acc 0 < 0) by (apply Hneg; lia). lra. }
    split; [reflexivity|]. split.
    { intro Hpos. exfalso.
      assert (nth 0 acc 0 < 0) by (apply Hneg; lia).
      assert (0 <= nth 0 acc 0) by (apply Hpos; lia). lra. }
    split.
    { intros Hpos _. exfalso.
      assert (nth 0 acc 0 < 0) by (apply Hneg; lia). lra. }
    intro Hz. exfalso. vm_compute in Hz. discriminate.
  - (* a first crossing at i' *)
    split.
    { intros i Hi Hc Hf.
      assert (i = i') as ->; [|reflexivity].
      destruct (Nat.lt_trichotomy i i') as [L | [E | L]]; [|exact E|].
      - exfalso. apply (Hf' i); [lia | exact Hc].
      - exfalso. apply (Hf i'); [lia | exact Hc']. }
    split.
    { intro Hneg. exfalso. destruct Hc' as [_ Hc'].
      assert (nth i' acc 0 < 0) by (apply Hneg; lia). lra. }
    split.
    { intro Hpos. exfalso. destruct Hc' as [Hc' _].
      assert (0 <= nth (i' - 1) acc 0) by (apply Hpos; lia). lra. }
    split.
    { intros _ Hnc. exfalso. apply (Hnc i'); [lia | exact Hc']. }
    intros _ Hneg. destruct Hc' as [_ Hc'].
    assert (nth i' acc 0 < 0) by (apply Hneg; lia). lra.
  - (* no crossing, some year non-negative *)
    split.
    { intros i Hi Hc _. exfalso. apply (Hnc i); [lia | exact Hc]. }
    split.
    { intro Hneg. exfalso. apply Hnn. intros i Hi. apply Hneg. lia. }
    split; [reflexivity|].
    split; [reflexivity|].
    intros _ Hneg. apply Hnn. intros i Hi. apply Hneg. lia.
Qed.

Lemma C3_payback_descontado_witness :
  exists r, calcular_indicadores cenario_base = Some r /\
            cruza (acumulado_de r) 4 /\
            Payback r
            = inject_Z 3
              + Qabs (nth 3 (acumulado_de r) 0)
                / Qabs (nth 4 (acumulado_de r) 0 - nth 3 (acumulado_de r) 0).
Proof.
  destruct cenario_base_retorna as (r & E & _).
  exists r. split; [exact E|].
  destruct (C3_payback_descontado cenario_base r E) as (_ & H & _).
  destruct (acumulado_de_retorno _ _ E) as (Ha & _).
  rewrite Ha in *.
  assert (Hc : cruza (fluxo_acumulado cenario_base) 4).
  { split; vm_compute; [reflexivity | discriminate]. }
  split; [exact Hc|].
  apply (H 4%nat); [simpl; lia | exact Hc |].
  intros j Hj [_ Hp]. revert Hp.
  assert (Hcases : j = 1%nat \/ j = 2%nat \/ j = 3%nat) by lia.
  destruct Hcases as [-> | [-> | ->]]; vm_compute; intro Hp; apply Hp;
    reflexivity.
Defined.

(** What the program does against C3 as stated.  On a sample with no
    investment and no efficiency gain the model returns; the cumulative
    discounted cash flow is 0 at year 0 and negative at every later year,
    so negative years are observed, and the payback returned is 0: the
    test [all(f < 0 ...)] fails at year 0 and the loop finds no year
    going from negative to non-negative. *)
Lemma C3_contraexemplo :
  exists r,
    calcular_indicadores sem_investimento_nem_eficiencia = Some r /\
    Payback r = 0 /\
    nth 0 (acumulado_de r) 0 == 0 /\
    nth 1 (acumulado_de r) 0 == - (9375000 # 7) /\
    (forall ano, (1 <= ano <= anos_projeto parametros_base)%nat ->
       nth ano (acumulado_de r) 0 < 0) /\
    ~ (forall ano, (ano <= anos_projeto parametros_base)%nat ->
         0 <= nth ano (acumulado_de r) 0).
Proof.
  assert (Hv : vpl sem_investimento_nem_eficiencia <= 0).
  { vm_compute. discriminate. }
  destruct (calcular_indicadores sem_investimento_nem_eficiencia)
    as [r|] eqn:E.
  2:{ apply calcular_indicadores_None in E. destruct E as [E _].
      exfalso. exact (Qlt_not_le _ _ E Hv). }
  exists r. split; [reflexivity|].
  destruct (acumulado_de_retorno _ _ E) as (Ha & Hp & _).
  rewrite Hp, Ha.
  assert (Hneg : forall ano,
             (1 <= ano <= anos_projeto parametros_base)%nat ->
             nth ano (fluxo_acumulado sem_investimento_nem_eficiencia) 0
             < 0).
  { intros ano Hano. cbn [anos_projeto parametros_base] in Hano.
    destruct ano as [|ano]; [lia|].
    do 15 (destruct ano as [|ano]; [vm_compute; reflexivity|]). lia. }
  split; [vm_compute; reflexivity|].
  split; [vm_compute; reflexivity|].
  split; [vm_compute; reflexivity|].
  split; [exact Hneg|].
  intro Hpos.
  assert (A : nth 1 (fluxo_acumulado sem_investimento_nem_eficiencia) 0
              < 0).
  { apply Hneg. cbn [anos_projeto parametros_base]. lia. }
  assert (B : 0 <= nth 1 (fluxo_acumulado
                            sem_investimento_nem_eficiencia) 0).
  { apply Hpos. cbn [anos_projeto parametros_base]. lia. }
  exact (Qlt_not_le _ _ A B).
Qed.

(** C7.  For every result returned by the model, the discounted payback
    lies in the closed interval [0, horizon]; at a year where the
    cumulative goes from negative to non-negative the interpolation
    fraction [|acc[i-1]| / |acc[i] - acc[i-1]|] has a positive divisor and
    lies in (0, 1]. *)
Theorem C7_payback_limitado (p : Parametros) (r : Indicadores) :
  calcular_indicadores p = Some r ->
  0 <= Payback r /\
  Payback r <= inject_Z (Z.of_nat (anos_projeto parametros_base)) /\
  (forall i, (1 <= i <= anos_projeto parametros_base)%nat ->
     cruza (acumulado_de r) i ->
     0 < Qabs (nth i (acumulado_de r) 0 - nth (i - 1) (acumulado_de r) 0) /\
     0 < Qabs (nth (i - 1) (acumulado_de r) 0)
         / Qabs (nth i (acumulado_de r) 0 - nth (i - 1) (acumulado_de r) 0) /\
     Qabs (nth (i - 1) (acumulado_de r) 0)
     / Qabs (nth i (acumulado_de r) 0 - nth (i - 1) (acumulado_de r) 0) <= 1).
Proof.
  intro H. destruct (acumulado_de_retorno p r H) as (_ & -> & Hlen).
  set (acc := acumulado_de r) in *.
  assert (Hh : 0 <= inject_Z (Z.of_nat (anos_projeto parametros_base))).
  { vm_compute. discriminate. }
  assert (Hb : 0 <= payback_de acc /\
               payback_de acc
               <= inject_Z (Z.of_nat (anos_projeto parametros_base))).
  { destruct (payback_de_casos acc)
      as [[_ ->] | [(i & Hi & Hc & _ & ->) | (_ & _ & ->)]].
    - split; [exact Hh | apply Qle_refl].
    - destruct (interpolacao_limites acc i) as [Hlo Hhi]; [lia | exact Hc |].
      destruct (inject_pred i) as [H0 _]; [lia|].
      assert (inject_Z (Z.of_nat i)
              <= inject_Z (Z.of_nat (anos_projeto parametros_base))).
      { rewrite <- Zle_Qle. lia. }
      lra.
    - split; [apply Qle_refl | exact Hh]. }
  destruct Hb as [Hb0 Hb1].
  split; [exact Hb0|]. split; [exact Hb1|].
  intros i _ Hc. apply (fracao_limites acc i Hc).
Qed.

Lemma C7_payback_limitado_witness :
  exists r, calcular_indicadores cenario_base = Some r /\
            0 <= Payback r /\ Payback r <= 15.
Proof.
  destruct cenario_base_retorna as (r & E & _).
  exists r. split; [exact E|].
  destruct (C7_payback_limitado cenario_base r E) as (H0 & H1 & _).
  split; [exact H0 | exact H1].
Defined.

End Payback.


(** ** The Monte Carlo driver *)

Section Simulacao.

Import Modelo MonteCarlo.

Variable G : Gerador.
Variable sb : Sidebar.

Lemma avancar_add (a b : nat) (s : estado G) :
  avancar G (a + b) s = avancar G b (avancar G a s).
Proof.
  revert s. induction a as [|a IH]; intro s; simpl; [reflexivity|].
  apply IH.
Qed.

Lemma sorteio_avancar (a k : nat) (s : estado G) :
  sorteio G (avancar G a s) k = sorteio G s (a + k).
Proof.
  unfold sorteio. rewrite avancar_add. reflexivity.
Qed.

Lemma amostra_avancar (s : estado G) (j : nat) :
  amostra G sb (avancar G 5 s) j = amostra G sb s (S j).
Proof.
  unfold amostra. rewrite !sorteio_avancar.
  replace (5 * S j)%nat with (5 + 5 * j)%nat by lia.
  rewrite !Nat.add_assoc. reflexivity.
Qed.

(** One iteration of the loop: five draws in the order price, investment,
    efficiency, cost, decline, then the model, then the appended row. *)
Lemma iterar_cons (i : nat) (resto : list nat) (res : list Linha)
  (s : estado G) :
  iterar G sb (i :: resto) res s
  = match calcular_indicadores (amostra G sb s 0) with
    | None => None
    | Some r =>
        iterar G sb resto (res ++ [linha_de i (amostra G sb s 0) r])
               (avancar G 5 s)
    end.
Proof.
  unfold amostra, sorteio, parametros_de.
  cbn [iterar avancar Nat.mul Nat.add].
  unfold bind, np_random_uniform, chamar.
  destruct (random_sample G s) as [u0 s1]. cbn [fst snd].
  destruct (random_sample G s1) as [u1 s2]. cbn [fst snd].
  destruct (random_sample G s2) as [u2 s3]. cbn [fst snd].
  destruct (random_sample G s3) as [u3 s4]. cbn [fst snd].
  destruct (random_sample G s4) as [u4 s5]. cbn [fst snd].
  destruct (calcular_indicadores _); reflexivity.
Qed.

(** The whole loop over [a, a+1, ..., a+k-1]. *)
Lemma iterar_linhas (k : nat) :
  forall (a : nat) (res : list Linha) (s : estado G) t s',
    iterar G sb (seq a k) res s = Some (t, s') ->
    s' = avancar G (5 * k) s /\
    exists novas,
      t = res ++ novas /\ length novas = k /\
      forall j, (j < k)%nat ->
        exists r, calcular_indicadores (amostra G sb s j) = Some r /\
                  nth_error novas j
                  = Some (linha_de (a + j) (amostra G sb s j) r).
Proof.
  induction k as [|k IH]; intros a res s t s'.
  - simpl. unfold ret. intro H. injection H as <- <-.
    split; [reflexivity|]. exists []. rewrite app_nil_r.
    split; [reflexivity|]. split; [reflexivity | intros; lia].
  - change (seq a (S k)) with (a :: seq (S a) k).
    rewrite iterar_cons.
    destruct (calcular_indicadores (amostra G sb s 0)) as [r|] eqn:E;
      [|discriminate].
    intro H. apply IH in H. destruct H as (-> & novas & -> & Hlen & Hj).
    split.
    { rewrite <- avancar_add. f_equal. lia. }
    exists (linha_de a (amostra G sb s 0) r :: novas).
    split; [rewrite <- app_assoc; reflexivity|].
    split; [simpl; lia|].
    intros [|j] Hlt.
    + exists r. rewrite Nat.add_0_r. split; [exact E | reflexivity].
    + destruct (Hj j) as (r' & Hr & Hn); [lia|].
      exists r'. rewrite amostra_avancar in Hr, Hn.
      split; [exact Hr|]. simpl.
      replace (a + S j)%nat with (S a + j)%nat by lia. exact Hn.
Qed.

(** The loop returns when the model returns on every sample. *)
Lemma iterar_retorna (k : nat) :
  forall (a : nat) (res : list Linha) (s : estado G),
    (forall j, (j < k)%nat -> ~ investimento (amostra G sb s j) == 0) ->
    exists t s', iterar G sb (seq a k) res s = Some (t, s').
Proof.
  induction k as [|k IH]; intros a res s H.
  - simpl. unfold ret. eauto.
  - change (seq a (S k)) with (a :: seq (S a) k).
    rewrite iterar_cons.
    destruct (calcular_indicadores_Some (amostra G sb s 0)) as [r ->].
    { apply H. lia. }
    apply IH. intros j Hj. rewrite amostra_avancar. apply H. lia.
Qed.

Lemma simular_monte_carlo_seed (n : nat) (s : estado G) :
  simular_monte_carlo G sb n s
  = iterar G sb (seq 0 n) [] (seed G 42).
Proof.
  unfold simular_monte_carlo, bind, np_random_seed, Py.range.
  rewrite Nat.sub_0_r. reflexivity.
Qed.

(** The table of a run: row [j] comes from the doubles [5j .. 5j+4] drawn
    after seeding with 42. *)
Lemma simular_monte_carlo_linhas (n : nat) (s : estado G) t s' :
  simular_monte_carlo G sb n s = Some (t, s') ->
  s' = avancar G (5 * n) (seed G 42) /\
  length t = n /\
  forall j, (j < n)%nat ->
    exists r, calcular_indicadores (amostra G sb (seed G 42) j) = Some r /\
              nth_error t j
              = Some (linha_de j (amostra G sb (seed G 42) j) r).
Proof.
  rewrite simular_monte_carlo_seed. intro H.
  apply iterar_linhas in H. destruct H as (-> & novas & -> & Hlen & Hj).
  split; [reflexivity|]. split; [exact Hlen | exact Hj].
Qed.

(** Every double is in [0, 1). *)
Lemma sorteio_faixa (s : estado G) (k : nat) :
  0 <= sorteio G s k /\ sorteio G s k < 1.
Proof. unfold sorteio. apply random_sample_range. Qed.

Lemma uniform_faixa (low high u : Q) :
  low <= high -> 0 <= u -> u < 1 ->
  low <= low + (high - low) * u /\ low + (high - low) * u <= high.
Proof. intros. split; nra. Qed.

(** The sampled parameters of an iteration lie in their ranges; the
    investment range is the sidebar's range times 1,000,000. *)
Lemma amostra_faixas (s : estado G) (j : nat) :
  preco_min sb <= preco_max sb ->
  investimento_min sb <= investimento_max sb ->
  eficiencia_min sb <= eficiencia_max sb ->
  preco_min sb <= preco (amostra G sb s j) <= preco_max sb /\
  investimento_min sb * 1000000 <= investimento (amostra G sb s j)
  <= investimento_max sb * 1000000 /\
  eficiencia_min sb <= eficiencia (amostra G sb s j) <= eficiencia_max sb /\
  (68 # 10) <= custo (amostra G sb s j) <= (104 # 10) /\
  2 <= declinio (amostra G sb s j) <= 10.
Proof.
  intros Hp Hi He. unfold amostra, parametros_de. cbn [preco investimento
    eficiencia custo declinio].
  destruct (sorteio_faixa s (5 * j)) as [A0 B0].
  destruct (sorteio_faixa s (5 * j + 1)) as [A1 B1].
  destruct (sorteio_faixa s (5 * j + 2)) as [A2 B2].
  destruct (sorteio_faixa s (5 * j + 3)) as [A3 B3].
  destruct (sorteio_faixa s (5 * j + 4)) as [A4 B4].
  pose proof (uniform_faixa _ _ _ Hp A0 B0).
  pose proof (uniform_faixa _ _ _ Hi A1 B1).
  pose proof (uniform_faixa _ _ _ He A2 B2).
  assert (H68 : (68 # 10) <= (104 # 10)) by discriminate.
  assert (H2 : 2 <= 10) by discriminate.
  pose proof (uniform_faixa _ _ _ H68 A3 B3).
  pose proof (uniform_faixa _ _ _ H2 A4 B4).
  repeat split; lra.
Qed.

(** With a positive investment range the run returns a table. *)
Lemma simular_monte_carlo_retorna (n : nat) (s : estado G) :
  0 < investimento_min sb -> investimento_min sb <= investimento_max sb ->
  exists t s', simular_monte_carlo G sb n s = Some (t, s').
Proof.
  intros H0 Hi. rewrite simular_monte_carlo_seed.
  apply iterar_retorna. intros j _.
  unfold amostra, parametros_de. cbn [investimento].
  destruct (sorteio_faixa (seed G 42) (5 * j + 1)) as [A B].
  pose proof (uniform_faixa _ _ _ Hi A B). lra.
Qed.

End Simulacao.

Section MonteCarloTeoremas.

Import Modelo MonteCarlo.

(** C2 (as amended).  For every iteration of the driver, the investment
    is drawn as [Uniform(investimento_min, investimento_max) * 1,000,000]:
    the sidebar's investment range is in millions and the drawn value is
    converted to currency units.  For ranges with min <= max, the
    investment recorded in every row of the table lies within
    [investimento_min * 1,000,000, investimento_max * 1,000,000], and the
    price, efficiency, cost and decline recorded lie within [preco_min,
    preco_max], [eficiencia_min, eficiencia_max], [6.8, 10.4] and [2, 10];
    the run returns a table of [n] rows when the investment range is
    positive. *)
Theorem C2_faixas_dos_sorteios
  (G : Gerador) (sb : Sidebar) (n : nat) (s : estado G) :
  preco_min sb <= preco_max sb ->
  investimento_min sb <= investimento_max sb ->
  eficiencia_min sb <= eficiencia_max sb ->
  (0 < investimento_min sb ->
   exists t s', simular_monte_carlo G sb n s = Some (t, s')) /\
  (forall t s', simular_monte_carlo G sb n s = Some (t, s') ->
     length t = n /\
     forall j l, nth_error t j = Some l ->
       (exists u, 0 <= u /\ u < 1 /\
          Investimento_Total l
          = (investimento_min sb
             + (investimento_max sb - investimento_min sb) * u) * 1000000) /\
       preco_min sb <= Preco_do_Petroleo l <= preco_max sb /\
       investimento_min sb * 1000000 <= Investimento_Total l
       <= investimento_max sb * 1000000 /\
       eficiencia_min sb <= Incremento_Fator_Recuperacao l
       <= eficiencia_max sb /\
       (68 # 10) <= Custo_Operacional_Variavel l <= (104 # 10) /\
       2 <= Taxa_de_Declinio l <= 10).
Proof.
  intros Hp Hi He. split.
  - intro H0. apply simular_monte_carlo_retorna; assumption.
  - intros t s' H. apply simular_monte_carlo_linhas in H.
    destruct H as (_ & Hlen & Hrow). split; [exact Hlen|].
    intros j l Hl.
    assert (Hj : (j < n)%nat).
    { rewrite <- Hlen. apply nth_error_Some. congruence. }
    destruct (Hrow j Hj) as (r & _ & Hn).
    rewrite Hn in Hl. injection Hl as <-.
    split.
    + exists (sorteio G (seed G 42) (5 * j + 1)).
      destruct (sorteio_faixa G (seed G 42) (5 * j + 1)) as [A B].
      split; [exact A|]. split; [exact B | reflexivity].
    + apply (amostra_faixas G sb (seed G 42) j Hp Hi He).
Qed.

Lemma C2_faixas_dos_sorteios_witness :
  exists t s',
    simular_monte_carlo lcg sidebar_padrao 3 0%Z = Some (t, s') /\
    length t = 3%nat /\
    forall j l, nth_error t j = Some l ->
      36 * 1000000 <= Investimento_Total l <= 63 * 1000000 /\
      50 <= Preco_do_Petroleo l <= 90.
Proof.
  destruct (C2_faixas_dos_sorteios lcg sidebar_padrao 3 0%Z)
    as [Hret Hall]; [discriminate | discriminate | discriminate |].
  destruct (Hret eq_refl) as (t & s' & E).
  exists t, s'. split; [exact E|].
  destruct (Hall t s' E) as [Hlen Hrows].
  split; [exact Hlen|].
  intros j l Hl. destruct (Hrows j l Hl) as (_ & A & B & _).
  split; [exact B | exact A].
Defined.

(** What the code does against C2 as stated: with the sliders' default
    investment range [36, 63] the run of one iteration returns a row
    whose recorded investment is at least 36,000,000, above
    [investimento_max = 63]: it is not within [investimento_min,
    investimento_max]. *)
Lemma C2_contraexemplo :
  exists t s' l,
    simular_monte_carlo lcg sidebar_padrao 1 0%Z = Some (t, s') /\
    nth_error t 0 = Some l /\
    investimento_max sidebar_padrao < Investimento_Total l /\
    ~ (investimento_min sidebar_padrao <= Investimento_Total l
       <= investimento_max sidebar_padrao).
Proof.
  destruct (simular_monte_carlo_retorna lcg sidebar_padrao 1 0%Z)
    as (t & s' & E); [reflexivity | discriminate |].
  destruct (simular_monte_carlo_linhas lcg sidebar_padrao 1 0%Z t s' E)
    as (_ & _ & Hrow).
  destruct (Hrow 0%nat) as (r & _ & Hn); [lia|].
  exists t, s', (linha_de 0 (amostra lcg sidebar_padrao (seed lcg 42) 0) r).
  split; [exact E|]. split; [exact Hn|].
  destruct (amostra_faixas lcg sidebar_padrao (seed lcg 42) 0)
    as (_ & [Hlo _] & _); [discriminate | discriminate | discriminate |].
  cbn [linha_de Investimento_Total].
  change (investimento_min sidebar_padrao) with 36 in *.
  change (investimento_max sidebar_padrao) with 63 in *.
  split; [lra | intros [_ H]; lra].
Qed.

(** C5.  For every sample count [n] and every sidebar configuration
    with a positive investment range, a run returns a table of [n] rows,
    and it is the same table from whatever state the global generator is
    found in: the run first re-seeds it with 42.  So a second run,
    started in the state left by the first, returns the same table again.
    In the table, row [j] (from 0) carries the index [j + 1] and the
    parameters computed from the doubles number [5j], [5j+1], [5j+2],
    [5j+3], [5j+4] drawn after seeding, used in this order for price,
    investment, efficiency, cost and decline, and the run leaves the
    generator [5n] draws after the seed.  For any configuration, two runs
    either both raise or both return the same table. *)
Theorem C5_determinismo (G : Gerador) (sb : Sidebar) (n : nat) :
  (forall s1 s2 : estado G,
     option_map fst (simular_monte_carlo G sb n s1)
     = option_map fst (simular_monte_carlo G sb n s2)) /\
  (forall (s1 : estado G) t1 s1',
     simular_monte_carlo G sb n s1 = Some (t1, s1') ->
     exists s2', simular_monte_carlo G sb n s1' = Some (t1, s2')) /\
  (forall (s : estado G) t s',
     simular_monte_carlo G sb n s = Some (t, s') ->
     s' = avancar G (5 * n) (seed G 42) /\
     length t = n /\
     forall j, (j < n)%nat ->
       exists r,
         calcular_indicadores (amostra G sb (seed G 42) j) = Some r /\
         nth_error t j
         = Some {| Simulacao := j + 1;
                   Preco_do_Petroleo :=
                     preco_min sb + (preco_max sb - preco_min sb)
                                    * sorteio G (seed G 42) (5 * j);
                   Investimento_Total :=
                     (investimento_min sb
                      + (investimento_max sb - investimento_min sb)
                        * sorteio G (seed G 42) (5 * j + 1)) * 1000000;
                   Incremento_Fator_Recuperacao :=
                     eficiencia_min sb
                     + (eficiencia_max sb - eficiencia_min sb)
                       * sorteio G (seed G 42) (5 * j + 2);
                   Custo_Operacional_Variavel :=
                     (68 # 10) + ((104 # 10) - (68 # 10))
                                 * sorteio G (seed G 42) (5 * j + 3);
                   Taxa_de_Declinio :=
                     2 + (10 - 2) * sorteio G (seed G 42) (5 * j + 4);
                   Linha_VPL := VPL r;
                   Linha_TIR := TIR r;
                   Linha_Payback := Payback r |}) /\
  (0 < investimento_min sb -> investimento_min sb <= investimento_max sb ->
   exists t : list Linha,
     length t = n /\
     (forall s1 : estado G,
        exists s1' s2',
          simular_monte_carlo G sb n s1 = Some (t, s1') /\
          simular_monte_carlo G sb n s1' = Some (t, s2') /\
          s1' = avancar G (5 * n) (seed G 42) /\ s2' = s1') /\
     (forall j, (j < n)%nat ->
        exists r l,
          calcular_indicadores (amostra G sb (seed G 42) j) = Some r /\
          nth_error t j = Some l /\
          l = linha_de j (amostra G sb (seed G 42) j) r /\
          Simulacao l = (j + 1)%nat)).
Proof.
  split; [|split; [|split]].
  - intros s1 s2. rewrite !simular_monte_carlo_seed. reflexivity.
  - intros s1 t1 s1' H. exists s1'.
    rewrite simular_monte_carlo_seed in *. exact H.
  - intros s t s' H. apply simular_monte_carlo_linhas in H.
    destruct H as (Hs & Hlen & Hrow).
    split; [exact Hs|]. split; [exact Hlen|].
    intros j Hj. destruct (Hrow j Hj) as (r & Hr & Hn).
    exists r. split; [exact Hr | exact Hn].
  - intros H0 Hi.
    destruct (simular_monte_carlo_retorna G sb n (seed G 42) H0 Hi)
      as (t & s' & E).
    destruct (simular_monte_carlo_linhas G sb n _ _ _ E)
      as (Hs & Hlen & Hrow).
    exists t. split; [exact Hlen|]. split.
    + intro s1. exists s', s'.
      rewrite simular_monte_carlo_seed in E.
      rewrite !simular_monte_carlo_seed.
      split; [exact E|]. split; [exact E|].
      split; [exact Hs | reflexivity].
    + intros j Hj. destruct (Hrow j Hj) as (r & Hr & Hn).
      exists r, (linha_de j (amostra G sb (seed G 42) j) r).
      split; [exact Hr|]. split; [exact Hn|].
      split; reflexivity.
Qed.

Lemma C5_determinismo_witness :
  exists t : list Linha,
    length t = 3%nat /\
    (forall s1 : estado lcg,
       exists s1' s2',
         simular_monte_carlo lcg sidebar_padrao 3 s1 = Some (t, s1') /\
         simular_monte_carlo lcg sidebar_padrao 3 s1' = Some (t, s2')) /\
    map Simulacao t = [1; 2; 3]%nat.
Proof.
  destruct (C5_determinismo lcg sidebar_padrao 3) as (_ & _ & _ & H).
  destruct H as (t & Hlen & Hrun & Hrow); [reflexivity | discriminate |].
  exists t. split; [exact Hlen|]. split.
  - intro s1. destruct (Hrun s1) as (s1' & s2' & A & B & _).
    exists s1', s2'. split; [exact A | exact B].
  - destruct t as [|l0 [|l1 [|l2 [|l3 t]]]]; try discriminate Hlen.
    destruct (Hrow 0%nat) as (r0 & x0 & _ & E0 & _ & S0); [lia|].
    destruct (Hrow 1%nat) as (r1 & x1 & _ & E1 & _ & S1); [lia|].
    destruct (Hrow 2%nat) as (r2 & x2 & _ & E2 & _ & S2); [lia|].
    cbn [nth_error] in E0, E1, E2.
    injection E0 as <-. injection E1 as <-. injection E2 as <-.
    cbn [map]. rewrite S0, S1, S2. reflexivity.
Defined.

End MonteCarloTeoremas.
